(** * greener-reporter-junitxml: a shallow embedding of main.go

    The Go program reads a JUnit XML report, opens a session on a Greener
    ingress endpoint and submits one record per test case.  Strings are Go
    byte strings, modelled as [String.string] (a list of 8-bit characters).
    Library code of the Go standard library that the program calls (the XML
    tokenizer, the JSON decoders, URL parsing, the HTTP transport, the file
    system) is kept abstract: the parts that decide a claim ([strings],
    [strconv.ParseInt], the struct-tag-directed decoding of [xml.Unmarshal])
    are written out, the rest are parameters of the sections below. *)

From Stdlib Require Import List String Ascii ZArith Bool Lia.
From Stdlib Require Import Numbers.DecimalString.
Import ListNotations.
Open Scope string_scope.
Set Warnings "-register-all".

(** ** Results and a small writer/error monad *)

(** A Go [(T, error)] pair: an error is its [Error()] text. *)
Inductive result (A : Type) : Type :=
| Ok (a : A)
| Err (e : string).
Arguments Ok {A} a.
Arguments Err {A} e.

(** [fmt.Errorf("<prefix>: %w", err)] *)
Definition wrap_msg (prefix e : string) : string := prefix ++ ": " ++ e.

(** [fmt.Sprintf("%d", n)] *)
Definition itoa (n : Z) : string := NilEmpty.string_of_int (Z.to_int n).

Definition newline : string := String (ascii_of_nat 10) EmptyString.

(** ** Package [strings] (the functions main.go calls) *)
Module strings.

(** [s[i:j]] for [0 <= i <= j <= len(s)] *)
Definition slice (s : string) (i j : nat) : string := substring i (j - i) s.

Definition HasSuffix (s suffix : string) : bool :=
  (length suffix <=? length s)%nat
  && String.eqb (slice s (length s - length suffix) (length s)) suffix.

Definition TrimSuffix (s suffix : string) : string :=
  if HasSuffix s suffix then slice s 0 (length s - length suffix) else s.

(** [strings.Cut(s, sep)]: the text before and after the first
    occurrence of [sep], and whether it occurs. *)
Fixpoint Cut (s sep : string) : string * string * bool :=
  if String.prefix sep s then
    (EmptyString, substring (length sep) (length s - length sep) s, true)
  else
    match s with
    | EmptyString => (s, EmptyString, false)
    | String c rest =>
        match Cut rest sep with
        | (before, after, true) => (String c before, after, true)
        | (_, _, false) => (s, EmptyString, false)
        end
    end.

(** [strings.Split(s, sep)] (and [strings.SplitSeq], which yields the same
    sequence) for a one-byte separator. *)
Fixpoint Split (s : string) (sep : ascii) : list string :=
  match s with
  | EmptyString => [EmptyString]
  | String c rest =>
      if Ascii.eqb c sep then EmptyString :: Split rest sep
      else match Split rest sep with
           | t :: ts => String c t :: ts
           | [] => [String c EmptyString]
           end
  end.

(** The UTF-8 encodings of the code points [unicode.IsSpace] accepts:
    the ASCII spaces, U+0085, U+00A0 and the non-Latin-1 White_Space
    code points U+1680, U+2000..U+200A, U+2028, U+2029, U+202F, U+205F
    and U+3000. *)
Definition b (n : nat) : ascii := ascii_of_nat n.
Definition space_encodings : list string :=
  map (fun n => String (b n) EmptyString) [9; 10; 11; 12; 13; 32]
  ++ [String (b 194) (String (b 133) EmptyString);
      String (b 194) (String (b 160) EmptyString);
      String (b 225) (String (b 154) (String (b 128) EmptyString))]
  ++ map (fun n => String (b 226) (String (b 128) (String (b n) EmptyString)))
         [128; 129; 130; 131; 132; 133; 134; 135; 136; 137; 138; 168; 169; 175]
  ++ [String (b 226) (String (b 129) (String (b 159) EmptyString));
      String (b 227) (String (b 128) (String (b 128) EmptyString))].

(** The rest of [s] after one leading space rune, if it starts with one.
    A valid encoding at the front of [s] is decoded as that rune whatever
    follows, so matching the bytes agrees with [utf8.DecodeRuneInString]. *)
Definition strip_space_prefix (s : string) : option string :=
  match find (fun enc => String.prefix enc s) space_encodings with
  | Some enc => Some (substring (length enc) (length s - length enc) s)
  | None => None
  end.

(** The rest of [s] before one trailing space rune.  A trailing valid
    encoding starts at a rune-start byte, so matching the bytes agrees
    with [utf8.DecodeLastRuneInString]. *)
Definition strip_space_suffix (s : string) : option string :=
  match find (fun enc => HasSuffix s enc) space_encodings with
  | Some enc => Some (slice s 0 (length s - length enc))
  | None => None
  end.

(** Every strip removes at least one byte, so [length s] rounds suffice. *)
Fixpoint trim_left_n (n : nat) (s : string) : string :=
  match n with
  | O => s
  | S n' => match strip_space_prefix s with
            | Some s' => trim_left_n n' s'
            | None => s
            end
  end.

Fixpoint trim_right_n (n : nat) (s : string) : string :=
  match n with
  | O => s
  | S n' => match strip_space_suffix s with
            | Some s' => trim_right_n n' s'
            | None => s
            end
  end.

(** [strings.TrimSpace]: its ASCII fast path and its fallback
    [TrimFunc(s, unicode.IsSpace)] both drop the leading and the trailing
    space runes. *)
Definition TrimSpace (s : string) : string :=
  let l := trim_left_n (length s) s in trim_right_n (length l) l.

End strings.

(** ** Package [strconv]: [ParseInt(s, 10, 64)] *)
Module strconv.
Local Open Scope Z_scope.

(** The double quote and the backslash bytes. *)
Definition dq : ascii := ascii_of_nat 34.
Definition bs : ascii := ascii_of_nat 92.

(** [lowerhex[n]] for [n < 16]. *)
Definition hex_digit (n : nat) : ascii :=
  if (n <? 10)%nat then ascii_of_nat (48 + n)%nat else ascii_of_nat (87 + n)%nat.

(** The escaped form of one byte in [appendEscapedRune] (quote [dq],
    [graphicOnly = false]): the quote and the backslash are preceded by a
    backslash, printable ASCII is kept, the seven C escapes are used for
    their control bytes and the other ASCII controls become [\xhh].  A byte
    above 0x7F is kept: this model does not decode UTF-8, where Go escapes
    invalid encodings and non-printable runes. *)
Definition quote_byte (c : ascii) : string :=
  let n := nat_of_ascii c in
  if ((n =? 34) || (n =? 92))%nat then String bs (String c EmptyString)
  else if ((32 <=? n) && (n <=? 126))%nat then String c EmptyString
  else if (n =? 7)%nat then String bs "a"
  else if (n =? 8)%nat then String bs "b"
  else if (n =? 12)%nat then String bs "f"
  else if (n =? 10)%nat then String bs "n"
  else if (n =? 13)%nat then String bs "r"
  else if (n =? 9)%nat then String bs "t"
  else if (n =? 11)%nat then String bs "v"
  else if (128 <=? n)%nat then String c EmptyString
  else String bs (String "x"%char (String (hex_digit (n / 16)%nat)
                                    (String (hex_digit (n mod 16)%nat) EmptyString))).

Fixpoint quote_body (s : string) : string :=
  match s with
  | EmptyString => EmptyString
  | String c rest => quote_byte c ++ quote_body rest
  end.

(** [strconv.Quote(s)]: the escaped text between double quotes. *)
Definition Quote (s : string) : string :=
  String dq (quote_body s ++ String dq EmptyString).

(** [NumError.Error()]: ["strconv." + Func + ": parsing " + Quote(Num) + ": "
    + Err.Error()], with [Func = "ParseInt"] (the errors of [ParseUint]
    are renamed by [ParseInt]) and [Num] the whole input. *)
Definition syntax_error (s : string) : string :=
  "strconv.ParseInt: parsing " ++ Quote s ++ ": invalid syntax".
Definition range_error (s : string) : string :=
  "strconv.ParseInt: parsing " ++ Quote s ++ ": value out of range".

Definition maxUint64 : Z := 2 ^ 64 - 1.
(** [cutoff = maxUint64/10 + 1] *)
Definition cutoff : Z := maxUint64 / 10 + 1.

Definition digit_val (c : ascii) : option Z :=
  let n := nat_of_ascii c in
  if ((48 <=? n) && (n <=? 57))%nat then Some (Z.of_nat (n - 48)) else None.

(** The digit loop of [ParseUint(s, 10, 64)], run on the digits after
    the sign; [s0] is the whole input, quoted in the error. *)
Fixpoint parse_uint_loop (s0 : string) (s : string) (n : Z) : result Z :=
  match s with
  | EmptyString => Ok n
  | String c rest =>
      match digit_val c with
      | None => Err (syntax_error s0)
      | Some d =>
          if cutoff <=? n then Err (range_error s0)
          else
            let n1 := n * 10 + d in
            if maxUint64 <? n1 then Err (range_error s0)
            else parse_uint_loop s0 rest n1
      end
  end.

Definition ParseInt (s0 : string) : result Z :=
  match s0 with
  | EmptyString => Err (syntax_error s0)
  | String c rest =>
      let '(neg, digits) :=
        if Ascii.eqb c "+"%char then (false, rest)
        else if Ascii.eqb c "-"%char then (true, rest)
        else (false, s0) in
      match digits with
      | EmptyString => Err (syntax_error s0)
      | _ =>
          match parse_uint_loop s0 digits 0 with
          | Err e => Err e
          | Ok un =>
              if negb neg && (2 ^ 63 <=? un) then Err (range_error s0)
              else if neg && (2 ^ 63 <? un) then Err (range_error s0)
              else Ok (if neg then - un else un)
          end
      end
  end.

End strconv.

(** ** The report model (the structs decoded from the XML) *)

Record Failure := { Failure_Message : string; Failure_Type : string;
                    Failure_Content : string }.
Record Error := { Error_Message : string; Error_Type : string;
                  Error_Content : string }.
Record Skipped := { Skipped_Message : string }.

(** Go pointers [*Failure], [*Error], [*Skipped] as options: [nil] is [None]. *)
Record TestCase := {
  TestCase_Name : string;
  TestCase_Classname : string;
  TestCase_Time : string;
  TestCase_Failure : option Failure;
  TestCase_Error : option Error;
  TestCase_Skipped : option Skipped }.

(** [int] fields as [Z]: [encoding/xml] stores them with 64 bits. *)
Record TestSuite := {
  TestSuite_Name : string;
  TestSuite_Tests : Z;
  TestSuite_Failures : Z;
  TestSuite_Errors : Z;
  TestSuite_Skipped : Z;
  TestSuite_Time : string;
  TestSuite_Timestamp : string;
  TestSuite_TestCases : list TestCase }.

Record TestSuites := { TestSuites_TestSuites : list TestSuite }.

(** ** Labels, baggage and the JSON request bodies *)

Record Label := { Label_Key : string; Label_Value : string }.

(** A value decoded by [encoding/json] into [any]; a number is kept as its
    literal text (the program never inspects baggage values). *)
Inductive JValue :=
| JNull
| JBool (b : bool)
| JNumber (literal : string)
| JString (s : string)
| JArray (xs : list JValue)
| JObject (kvs : list (string * JValue)).

(** [map[string]any]: [None] is the nil map. *)
Definition Baggage := option (list (string * JValue)).

Record SessionRequest := {
  SessionRequest_Id : string;
  SessionRequest_Description : string;
  SessionRequest_Labels : list Label;
  SessionRequest_Baggage : Baggage }.

Record SessionResponse := { SessionResponse_Id : string }.

Record TestcaseRequest := {
  SessionId : string;
  TestcaseName : string;
  TestcaseClassname : string;
  TestcaseFile : string;
  Testsuite : string;
  Status : string;
  Output : string;
  TestcaseRequest_Baggage : Baggage }.

Record TestcasesRequest := { Testcases : list TestcaseRequest }.

(** ** [parseLabels] *)

Definition parseLabels (labelsStr : string) : list Label :=
  if String.eqb labelsStr "" then []
  else
    fold_left
      (fun labels labelStr0 =>
         let labelStr := strings.TrimSpace labelStr0 in
         if String.eqb labelStr "" then labels
         else
           match strings.Cut labelStr "=" with
           | (before, after, true) =>
               (labels ++ [{| Label_Key := before; Label_Value := after |}])%list
           | (_, _, false) =>
               (labels ++ [{| Label_Key := labelStr; Label_Value := "" |}])%list
           end)
      (strings.Split labelsStr ","%char) [].

(** ** [xml.Unmarshal] into [TestSuites]

    The XML tokenizer of [encoding/xml] is abstract (a parameter [xml_root]
    below): it turns the bytes into the first element of the document or
    fails when they are not well-formed.  What follows is the decoding that
    the struct tags of main.go direct.  Names are local names (the tags carry
    no namespace); comments and processing instructions are ignored. *)
Inductive Node :=
| Element (name : string) (attrs : list (string * string)) (children : list Node)
| CharData (text : string)
| Comment (text : string).

(** [copyValue] for an [int] destination: the empty text is 0, anything
    else goes through [strconv.ParseInt(strings.TrimSpace(src), 10, 64)]. *)
Definition copy_int (src : string) : result Z :=
  if String.eqb src "" then Ok 0%Z
  else strconv.ParseInt (strings.TrimSpace src).

(** The text of a [,chardata] field: the character data directly inside
    the element. *)
Fixpoint chardata (children : list Node) : string :=
  match children with
  | [] => ""
  | CharData t :: rest => t ++ chardata rest
  | _ :: rest => chardata rest
  end.

Definition empty_failure : Failure :=
  {| Failure_Message := ""; Failure_Type := ""; Failure_Content := "" |}.
Definition empty_error : Error :=
  {| Error_Message := ""; Error_Type := ""; Error_Content := "" |}.

(** A repeated [<failure>] element decodes into the struct the pointer
    already holds, as [encoding/xml] does for a non-nil pointer. *)
Definition unmarshal_Failure (prev : option Failure)
    (attrs : list (string * string)) (children : list Node) : Failure :=
  let f0 := match prev with Some f => f | None => empty_failure end in
  let f1 := fold_left
    (fun f '(k, v) =>
       if String.eqb k "message" then
         {| Failure_Message := v; Failure_Type := Failure_Type f;
            Failure_Content := Failure_Content f |}
       else if String.eqb k "type" then
         {| Failure_Message := Failure_Message f; Failure_Type := v;
            Failure_Content := Failure_Content f |}
       else f) attrs f0 in
  {| Failure_Message := Failure_Message f1; Failure_Type := Failure_Type f1;
     Failure_Content := chardata children |}.

Definition unmarshal_Error (prev : option Error)
    (attrs : list (string * string)) (children : list Node) : Error :=
  let e0 := match prev with Some e => e | None => empty_error end in
  let e1 := fold_left
    (fun e '(k, v) =>
       if String.eqb k "message" then
         {| Error_Message := v; Error_Type := Error_Type e;
            Error_Content := Error_Content e |}
       else if String.eqb k "type" then
         {| Error_Message := Error_Message e; Error_Type := v;
            Error_Content := Error_Content e |}
       else e) attrs e0 in
  {| Error_Message := Error_Message e1; Error_Type := Error_Type e1;
     Error_Content := chardata children |}.

Definition unmarshal_Skipped (prev : option Skipped)
    (attrs : list (string * string)) : Skipped :=
  fold_left
    (fun s '(k, v) =>
       if String.eqb k "message" then {| Skipped_Message := v |} else s)
    attrs (match prev with Some s => s | None => {| Skipped_Message := "" |} end).

Definition empty_case : TestCase :=
  {| TestCase_Name := ""; TestCase_Classname := ""; TestCase_Time := "";
     TestCase_Failure := None; TestCase_Error := None;
     TestCase_Skipped := None |}.

Definition set_case_attr (tc : TestCase) (a : string * string) : TestCase :=
  let '(k, v) := a in
  let '(Build_TestCase n c t f e s) := tc in
  if String.eqb k "name" then Build_TestCase v c t f e s
  else if String.eqb k "classname" then Build_TestCase n v t f e s
  else if String.eqb k "time" then Build_TestCase n c v f e s
  else tc.

Definition case_child (tc : TestCase) (child : Node) : TestCase :=
  let '(Build_TestCase n c t f e s) := tc in
  match child with
  | Element k attrs kids =>
      if String.eqb k "failure" then
        Build_TestCase n c t (Some (unmarshal_Failure f attrs kids)) e s
      else if String.eqb k "error" then
        Build_TestCase n c t f (Some (unmarshal_Error e attrs kids)) s
      else if String.eqb k "skipped" then
        Build_TestCase n c t f e (Some (unmarshal_Skipped s attrs))
      else tc
  | _ => tc
  end.

(** Decoding a [<testcase>] only fills strings and pointers: it cannot fail. *)
Definition unmarshal_TestCase (attrs : list (string * string))
    (children : list Node) : TestCase :=
  fold_left case_child children (fold_left set_case_attr attrs empty_case).

Definition empty_suite : TestSuite :=
  {| TestSuite_Name := ""; TestSuite_Tests := 0; TestSuite_Failures := 0;
     TestSuite_Errors := 0; TestSuite_Skipped := 0; TestSuite_Time := "";
     TestSuite_Timestamp := ""; TestSuite_TestCases := [] |}.

(** One attribute of a [<testsuite>] start tag, [unmarshalAttr] for the
    field it names; unknown attributes are ignored. *)
Definition set_suite_attr (su : TestSuite) (a : string * string)
    : result TestSuite :=
  let '(k, v) := a in
  let '(Build_TestSuite nm te fa er sk ti tst cs) := su in
  if String.eqb k "name" then Ok (Build_TestSuite v te fa er sk ti tst cs)
  else if String.eqb k "tests" then
    match copy_int v with
    | Ok z => Ok (Build_TestSuite nm z fa er sk ti tst cs) | Err e => Err e end
  else if String.eqb k "failures" then
    match copy_int v with
    | Ok z => Ok (Build_TestSuite nm te z er sk ti tst cs) | Err e => Err e end
  else if String.eqb k "errors" then
    match copy_int v with
    | Ok z => Ok (Build_TestSuite nm te fa z sk ti tst cs) | Err e => Err e end
  else if String.eqb k "skipped" then
    match copy_int v with
    | Ok z => Ok (Build_TestSuite nm te fa er z ti tst cs) | Err e => Err e end
  else if String.eqb k "time" then Ok (Build_TestSuite nm te fa er sk v tst cs)
  else if String.eqb k "timestamp" then Ok (Build_TestSuite nm te fa er sk ti v cs)
  else Ok su.

(** The attributes in document order; the first failing one is returned. *)
Fixpoint set_suite_attrs (su : TestSuite) (attrs : list (string * string))
    : result TestSuite :=
  match attrs with
  | [] => Ok su
  | a :: rest =>
      match set_suite_attr su a with
      | Ok su' => set_suite_attrs su' rest
      | Err e => Err e
      end
  end.

Definition suite_child (su : TestSuite) (child : Node) : TestSuite :=
  let '(Build_TestSuite nm te fa er sk ti tst cs) := su in
  match child with
  | Element k attrs kids =>
      if String.eqb k "testcase" then
        Build_TestSuite nm te fa er sk ti tst
          (cs ++ [unmarshal_TestCase attrs kids])%list
      else su
  | _ => su
  end.

Definition unmarshal_TestSuite (attrs : list (string * string))
    (children : list Node) : result TestSuite :=
  match set_suite_attrs empty_suite attrs with
  | Ok su => Ok (fold_left suite_child children su)
  | Err e => Err e
  end.

Fixpoint suites_children (acc : list TestSuite) (children : list Node)
    : result (list TestSuite) :=
  match children with
  | [] => Ok acc
  | Element k attrs kids :: rest =>
      if String.eqb k "testsuite" then
        match unmarshal_TestSuite attrs kids with
        | Ok su => suites_children (acc ++ [su])%list rest
        | Err e => Err e
        end
      else suites_children acc rest
  | _ :: rest => suites_children acc rest
  end.

(** The root must be [<testsuites>] (the [XMLName] tag); it has no
    attribute fields. *)
Definition unmarshal_TestSuites (root : Node) : result TestSuites :=
  match root with
  | Element name _ children =>
      if String.eqb name "testsuites" then
        match suites_children [] children with
        | Ok l => Ok {| TestSuites_TestSuites := l |}
        | Err e => Err e
        end
      else Err ("expected element type <testsuites> but have <" ++ name ++ ">")
  | _ => Err "EOF"
  end.

(** ** The outside world and the effects of the program *)

Inductive Body :=
| SessionBody (r : SessionRequest)
| TestcasesBody (r : TestcasesRequest).

(** An [*http.Request] as main.go builds it: the method, the URL, the two
    headers it sets and the JSON body (the marshalled struct). *)
Record HttpRequest := {
  Method : string;
  URL : string;
  ContentType : string;
  XApiKey : string;
  ReqBody : Body }.

(** What [client.Do] returns: a transport error, or a response with its
    status code and the bytes of its body. *)
Inductive HttpResult :=
| TransportError (e : string)
| Response (StatusCode : Z) (body : string).

(** The observable effects, in the order the program performs them. *)
Inductive Event :=
| ReadStdin
| ReadFile (path : string)
| HttpDo (req : HttpRequest).

Record World := {
  stdin_bytes : result string;                 (** [io.ReadAll(os.Stdin)] *)
  read_file : string -> result string;          (** [os.ReadFile] *)
  http_do : HttpRequest -> HttpResult }.        (** [r.client.Do] *)

(** The standard-library decoders main.go relies on. *)
Record GoLib := {
  xml_root : string -> result Node;             (** tokenizer of [xml.Unmarshal] *)
  json_decode_session : string -> result SessionResponse;
  json_unmarshal_baggage : string -> result Baggage;
  url_parse_error : string -> option string }.  (** [http.NewRequest]'s URL check *)

(** [xml.Unmarshal(xmlData, &testsuites)] *)
Definition xml_Unmarshal (lib : GoLib) (data : string) : result TestSuites :=
  match xml_root lib data with
  | Ok root => unmarshal_TestSuites root
  | Err e => Err e
  end.

(** A writer/error monad: the result and the events performed. *)
Definition M (A : Type) : Type := (result A * list Event)%type.

Definition ret {A} (a : A) : M A := (Ok a, []).
Definition fail {A} (e : string) : M A := (Err e, []).
Definition bind {A B} (m : M A) (f : A -> M B) : M B :=
  match m with
  | (Ok a, evs) => let '(r, evs') := f a in (r, evs ++ evs')%list
  | (Err e, evs) => (Err e, evs)
  end.
Notation "x <- m ;; k" := (bind m (fun x => k))
  (at level 61, m at next level, right associativity).

(** [if err := f(); err != nil { return fmt.Errorf("<prefix>: %w", err) }] *)
Definition wrap {A} (prefix : string) (m : M A) : M A :=
  match m with
  | (Err e, evs) => (Err (wrap_msg prefix e), evs)
  | ok => ok
  end.

Record Reporter := {
  endpoint : string;
  apiKey : string;
  sessionId : string;
  sessionDescription : string;
  sessionLabels : list Label;
  sessionBaggage : Baggage }.

Definition NewReporter (endpoint apiKey sessionID sessionDescription : string)
    (sessionLabels : list Label) (sessionBaggage : Baggage) : Reporter :=
  {| endpoint := strings.TrimSuffix endpoint "/";
     apiKey := apiKey;
     sessionId := sessionID;
     sessionDescription := sessionDescription;
     sessionLabels := sessionLabels;
     sessionBaggage := sessionBaggage |}.

Definition with_sessionId (r : Reporter) (id : string) : Reporter :=
  {| endpoint := endpoint r; apiKey := apiKey r; sessionId := id;
     sessionDescription := sessionDescription r;
     sessionLabels := sessionLabels r; sessionBaggage := sessionBaggage r |}.

(** The body [createSession] marshals: the fields of the reporter, with the
    default description when it is empty. *)
Definition session_request (r : Reporter) : SessionRequest :=
  let req := {| SessionRequest_Id := sessionId r;
                SessionRequest_Description := sessionDescription r;
                SessionRequest_Labels := sessionLabels r;
                SessionRequest_Baggage := sessionBaggage r |} in
  if String.eqb (SessionRequest_Description req) "" then
    {| SessionRequest_Id := SessionRequest_Id req;
       SessionRequest_Description := "JUnit XML test report";
       SessionRequest_Labels := SessionRequest_Labels req;
       SessionRequest_Baggage := SessionRequest_Baggage req |}
  else req.

Definition sessions_path : string := "/api/v1/ingress/sessions".
Definition testcases_path : string := "/api/v1/ingress/testcases".

Definition session_http_request (r : Reporter) : HttpRequest :=
  {| Method := "POST"; URL := endpoint r ++ sessions_path;
     ContentType := "application/json"; XApiKey := apiKey r;
     ReqBody := SessionBody (session_request r) |}.

(** The records [submitResults] builds: one per case, appended suite by
    suite and case by case, with the status and output of the
    failure / error / skipped checks. *)
Definition build_testcases (sid : string) (testsuites : TestSuites)
    : list TestcaseRequest :=
  fold_left
    (fun testcases suite =>
       fold_left
         (fun testcases tc =>
            let '(status, output) :=
              match TestCase_Failure tc with
              | Some f => ("fail", "Failure: " ++ Failure_Message f ++ newline
                                   ++ Failure_Content f)
              | None =>
                  match TestCase_Error tc with
                  | Some e => ("error", "Error: " ++ Error_Message e ++ newline
                                        ++ Error_Content e)
                  | None =>
                      match TestCase_Skipped tc with
                      | Some s => ("skip", Skipped_Message s)
                      | None => ("pass", "")
                      end
                  end
              end in
            (testcases ++
              [{| SessionId := sid;
                  TestcaseName := TestCase_Name tc;
                  TestcaseClassname := TestCase_Classname tc;
                  TestcaseFile := "";
                  Testsuite := TestSuite_Name suite;
                  Status := status;
                  Output := output;
                  TestcaseRequest_Baggage := None |}])%list)
         (TestSuite_TestCases suite) testcases)
    (TestSuites_TestSuites testsuites) [].

Definition testcases_http_request (r : Reporter) (tcs : list TestcaseRequest)
    : HttpRequest :=
  {| Method := "POST"; URL := endpoint r ++ testcases_path;
     ContentType := "application/json"; XApiKey := apiKey r;
     ReqBody := TestcasesBody {| Testcases := tcs |} |}.

(** The command-line values [run] reads. *)
Record Config := {
  cfg_endpoint : string;
  cfg_apiKey : string;
  cfg_xmlFile : string;
  cfg_sessionID : string;
  cfg_sessionDescription : string;
  cfg_sessionLabels : string;
  cfg_sessionBaggage : string }.

Section Pipeline.
Variable lib : GoLib.
Variable w : World.

Definition client_Do (req : HttpRequest) : M HttpResult :=
  (Ok (http_do w req), [HttpDo req]).

(** [json.Marshal] of these bodies cannot fail (the baggage was itself
    decoded from JSON), so it is not modelled. *)
Definition createSession (r : Reporter) : M Reporter :=
  let httpReq := session_http_request r in
  match url_parse_error lib (URL httpReq) with
  | Some e => fail (wrap_msg "create session request" e)
  | None =>
      resp <- client_Do httpReq ;;
      match resp with
      | TransportError e => fail (wrap_msg "send session request" e)
      | Response status body =>
          if negb (Z.eqb status 201) then
            fail ("create session failed: status=" ++ itoa status
                  ++ " body=" ++ body)
          else
            match json_decode_session lib body with
            | Err e => fail (wrap_msg "decode session response" e)
            | Ok sessionResp =>
                ret (with_sessionId r (SessionResponse_Id sessionResp))
            end
      end
  end.

Definition submitResults (r : Reporter) (testsuites : TestSuites) : M unit :=
  let testcases := build_testcases (sessionId r) testsuites in
  if Nat.eqb (List.length testcases) 0 then ret tt
  else
    let httpReq := testcases_http_request r testcases in
    match url_parse_error lib (URL httpReq) with
    | Some e => fail (wrap_msg "create testcases request" e)
    | None =>
        resp <- client_Do httpReq ;;
        match resp with
        | TransportError e => fail (wrap_msg "send testcases request" e)
        | Response status body =>
            if negb (Z.eqb status 201) then
              fail ("submit testcases failed: status=" ++ itoa status
                    ++ " body=" ++ body)
            else ret tt
        end
    end.

Definition read_input (xmlFile : string) : M string :=
  if String.eqb xmlFile "-" then
    match stdin_bytes w with
    | Ok d => (Ok d, [ReadStdin])
    | Err e => (Err (wrap_msg "read from stdin" e), [ReadStdin])
    end
  else
    match read_file w xmlFile with
    | Ok d => (Ok d, [ReadFile xmlFile])
    | Err e => (Err (wrap_msg ("read file " ++ xmlFile) e), [ReadFile xmlFile])
    end.

Definition parse_baggage (s : string) : M Baggage :=
  if String.eqb s "" then ret None
  else match json_unmarshal_baggage lib s with
       | Ok b => ret b
       | Err e => fail (wrap_msg "parse session baggage" e)
       end.

Definition run (c : Config) : M unit :=
  let sessionLabels := parseLabels (cfg_sessionLabels c) in
  sessionBaggage <- parse_baggage (cfg_sessionBaggage c) ;;
  let reporter := NewReporter (cfg_endpoint c) (cfg_apiKey c)
                    (cfg_sessionID c) (cfg_sessionDescription c)
                    sessionLabels sessionBaggage in
  reporter' <- wrap "create session" (createSession reporter) ;;
  xmlData <- read_input (cfg_xmlFile c) ;;
  testsuites <- (match xml_Unmarshal lib xmlData with
                 | Ok t => ret t
                 | Err e => fail (wrap_msg "parse XML" e)
                 end) ;;
  wrap "submit results" (submitResults reporter' testsuites).

End Pipeline.

(** ** Concrete inputs *)

Definition sample_failure : Failure :=
  {| Failure_Message := "assert failed"; Failure_Type := "";
     Failure_Content := "got 1 want 2" |}.

(** The scenario of spec section 8: suite [pkg] with a passing [TestA] and
    a failing [TestB]. *)
Definition sample_root : Node :=
  Element "testsuites" []
    [Element "testsuite" [("name", "pkg"); ("tests", "2"); ("failures", "1")]
       [Element "testcase" [("name", "TestA"); ("classname", "pkg")] [];
        Element "testcase" [("name", "TestB"); ("classname", "pkg")]
          [Element "failure" [("message", "assert failed")]
             [CharData "got 1 want 2"]]]].

Definition empty_report : TestSuites :=
  {| TestSuites_TestSuites :=
       [{| TestSuite_Name := "pkg"; TestSuite_Tests := 0;
           TestSuite_Failures := 0; TestSuite_Errors := 0;
           TestSuite_Skipped := 0; TestSuite_Time := "";
           TestSuite_Timestamp := ""; TestSuite_TestCases := [] |}] |}.

(** A library whose tokenizer always yields [sample_root] and whose session
    decoder reads the whole body as the id. *)
Definition lib0 : GoLib :=
  {| xml_root := fun _ => Ok sample_root;
     json_decode_session := fun body => Ok {| SessionResponse_Id := body |};
     json_unmarshal_baggage := fun _ => Ok None;
     url_parse_error := fun _ => None |}.

(** A server that creates session [s-1] and accepts every batch; the file
    [report.xml] is missing. *)
Definition w0 : World :=
  {| stdin_bytes := Ok "<testsuites/>";
     read_file := fun path =>
       if String.eqb path "report.xml"
       then Err "open report.xml: no such file or directory"
       else Ok "<testsuites/>";
     http_do := fun req =>
       match ReqBody req with
       | SessionBody _ => Response 201 "s-1"
       | TestcasesBody _ => Response 201 ""
       end |}.

(** A server that answers every request with status 500. *)
Definition w500 : World :=
  {| stdin_bytes := Ok "<testsuites/>";
     read_file := fun _ => Ok "<testsuites/>";
     http_do := fun _ => Response 500 "internal error" |}.

Definition cfg0 : Config :=
  {| cfg_endpoint := "https://greener.example";
     cfg_apiKey := "key";
     cfg_xmlFile := "-";
     cfg_sessionID := "client-id";
     cfg_sessionDescription := "";
     cfg_sessionLabels := "ci,tag=value, ,env=";
     cfg_sessionBaggage := "" |}.

(** [cfg0] reading the missing file [report.xml]. *)
Definition cfg_missing : Config :=
  {| cfg_endpoint := "https://greener.example";
     cfg_apiKey := "key";
     cfg_xmlFile := "report.xml";
     cfg_sessionID := "";
     cfg_sessionDescription := "nightly";
     cfg_sessionLabels := "";
     cfg_sessionBaggage := "" |}.


Definition reporter0 : Reporter :=
  NewReporter "https://greener.example/" "key" "client-id" "" [] None.

(** * Properties *)

(** ** Helpers for the statements *)

Definition total_cases (ts : TestSuites) : nat :=
  list_sum (map (fun s => List.length (TestSuite_TestCases s))
                (TestSuites_TestSuites ts)).

(** The record the loop body of [submitResults] appends for one case. *)
Definition case_record (sid : string) (suite : TestSuite) (tc : TestCase)
    : TestcaseRequest :=
  let '(status, output) :=
    match TestCase_Failure tc with
    | Some f => ("fail", "Failure: " ++ Failure_Message f ++ newline
                         ++ Failure_Content f)
    | None =>
        match TestCase_Error tc with
        | Some e => ("error", "Error: " ++ Error_Message e ++ newline
                              ++ Error_Content e)
        | None =>
            match TestCase_Skipped tc with
            | Some s => ("skip", Skipped_Message s)
            | None => ("pass", "")
            end
        end
    end in
  {| SessionId := sid; TestcaseName := TestCase_Name tc;
     TestcaseClassname := TestCase_Classname tc; TestcaseFile := "";
     Testsuite := TestSuite_Name suite; Status := status; Output := output;
     TestcaseRequest_Baggage := None |}.

(** The status/output rule as the spec states it (section 4.2): the first
    present detail among failure, error, skipped decides. *)
Definition spec_status_output (tc : TestCase) : string * string :=
  match TestCase_Failure tc, TestCase_Error tc, TestCase_Skipped tc with
  | Some f, _, _ =>
      ("fail", "Failure: " ++ Failure_Message f ++ newline ++ Failure_Content f)
  | None, Some e, _ =>
      ("error", "Error: " ++ Error_Message e ++ newline ++ Error_Content e)
  | None, None, Some s => ("skip", Skipped_Message s)
  | None, None, None => ("pass", "")
  end.

(** The reporter [run] builds once the baggage [bg] is decoded. *)
Definition run_reporter (c : Config) (bg : Baggage) : Reporter :=
  NewReporter (cfg_endpoint c) (cfg_apiKey c) (cfg_sessionID c)
    (cfg_sessionDescription c) (parseLabels (cfg_sessionLabels c)) bg.

(** What [run] does after the session is created, from the reporter it
    returned. *)
Definition run_after_session (lib : GoLib) (w : World) (c : Config)
    (reporter' : Reporter) : M unit :=
  xmlData <- read_input w (cfg_xmlFile c) ;;
  testsuites <- (match xml_Unmarshal lib xmlData with
                 | Ok t => ret t
                 | Err e => fail (wrap_msg "parse XML" e)
                 end) ;;
  wrap "submit results" (submitResults lib w reporter' testsuites).

Definition with_endpoint (c : Config) (e : string) : Config :=
  {| cfg_endpoint := e; cfg_apiKey := cfg_apiKey c; cfg_xmlFile := cfg_xmlFile c;
     cfg_sessionID := cfg_sessionID c;
     cfg_sessionDescription := cfg_sessionDescription c;
     cfg_sessionLabels := cfg_sessionLabels c;
     cfg_sessionBaggage := cfg_sessionBaggage c |}.

(** Every record of a submission request carries the session id [sid]. *)
Definition carries_session_id (sid : string) (ev : Event) : Prop :=
  match ev with
  | HttpDo req =>
      match ReqBody req with
      | TestcasesBody tr => Forall (fun t => SessionId t = sid) (Testcases tr)
      | SessionBody _ => True
      end
  | _ => True
  end.

(** [parseLabels] as the spec words it: split on commas, trim each token,
    drop the blank ones, split a token at its first ['='] into key and
    value, or take it whole as a key with no value. *)
Definition spec_label (tok : string) : list Label :=
  let t := strings.TrimSpace tok in
  if String.eqb t "" then []
  else
    match String.index 0 "=" t with
    | Some i => [{| Label_Key := substring 0 i t;
                    Label_Value := substring (S i) (String.length t - S i) t |}]
    | None => [{| Label_Key := t; Label_Value := "" |}]
    end.

Definition spec_parseLabels (s : string) : list Label :=
  flat_map spec_label (strings.Split s ","%char).

(** ** When decoding succeeds *)

Definition is_ok {A} (r : result A) : bool :=
  match r with Ok _ => true | Err _ => false end.

(** The [int] fields of a [<testsuite>]. *)
Definition count_attr (k : string) : bool :=
  String.eqb k "tests" || String.eqb k "failures" || String.eqb k "errors"
  || String.eqb k "skipped".

(** The text of an [int] attribute decodes. *)
Definition int_text_ok (v : string) : bool := is_ok (copy_int v).

Definition suite_attrs_ok (attrs : list (string * string)) : bool :=
  forallb (fun '(k, v) => negb (count_attr k) || int_text_ok v) attrs.

Definition suite_child_ok (n : Node) : bool :=
  match n with
  | Element k attrs _ => negb (String.eqb k "testsuite") || suite_attrs_ok attrs
  | _ => true
  end.

(** The [int] field a count attribute name selects. *)
Definition count_field (k : string) (su : TestSuite) : Z :=
  if String.eqb k "tests" then TestSuite_Tests su
  else if String.eqb k "failures" then TestSuite_Failures su
  else if String.eqb k "errors" then TestSuite_Errors su
  else TestSuite_Skipped su.

(** A [<testsuites>] document whose suite says [tests="abc"]. *)
Definition malformed_count_root : Node :=
  Element "testsuites" []
    [Element "testsuite" [("name", "pkg"); ("tests", "abc"); ("time", "soon")]
       [Element "testcase" [("name", "TestA")] []]].

(** ** Helpers for the further properties *)

Definition is_session_req (req : HttpRequest) : Prop :=
  match ReqBody req with SessionBody _ => True | TestcasesBody _ => False end.
Definition is_batch_req (req : HttpRequest) : Prop :=
  match ReqBody req with SessionBody _ => False | TestcasesBody _ => True end.
Definition is_read (ev : Event) : Prop :=
  match ev with ReadStdin | ReadFile _ => True | HttpDo _ => False end.

(** The shapes of a run's effects: nothing; the session request; the
    session request and the input read; or these and one batch request. *)
Definition trace_shape (evs : list Event) : Prop :=
  match evs with
  | [] => True
  | [HttpDo s] => is_session_req s
  | [HttpDo s; rd] => is_session_req s /\ is_read rd
  | [HttpDo s; rd; HttpDo t] => is_session_req s /\ is_read rd /\ is_batch_req t
  | _ => False
  end.

(** A request of the run was answered [201 Created]. *)
Definition answered_created (w : World) (ev : Event) : Prop :=
  match ev with
  | HttpDo req => exists body, http_do w req = Response 201 body
  | _ => True
  end.

(** The prefixes [run] puts in front of the error it returns. *)
Definition run_stages (c : Config) : list string :=
  ["parse session baggage"; "create session"; "read from stdin";
   "read file " ++ cfg_xmlFile c; "parse XML"; "submit results"].

(** What [run] may do, event by event: the session request of the reporter
    built from the decoded baggage, a batch request of that reporter with
    some session id, or a read of the configured input. *)
Definition run_event_ok (lib : GoLib) (c : Config) (ev : Event) : Prop :=
  match ev with
  | HttpDo req =>
      exists bg, fst (parse_baggage lib (cfg_sessionBaggage c)) = Ok bg /\
        (req = session_http_request (run_reporter c bg) \/
         exists id tcs,
           req = testcases_http_request (with_sessionId (run_reporter c bg) id) tcs)
  | ReadStdin => cfg_xmlFile c = "-"
  | ReadFile p => p = cfg_xmlFile c /\ p <> "-"
  end.

(** The headers and method every request of [run] carries. *)
Definition request_headers_ok (apiKey : string) (ev : Event) : Prop :=
  match ev with
  | HttpDo req =>
      Method req = "POST" /\ ContentType req = "application/json" /\
      XApiKey req = apiKey
  | _ => True
  end.

(** A session request of [run] carries the configured id and labels and
    the decoded baggage. *)
Definition session_body_from_config (lib : GoLib) (c : Config) (ev : Event) : Prop :=
  match ev with
  | HttpDo req =>
      match ReqBody req with
      | SessionBody sr =>
          SessionRequest_Id sr = cfg_sessionID c /\
          SessionRequest_Labels sr = parseLabels (cfg_sessionLabels c) /\
          fst (parse_baggage lib (cfg_sessionBaggage c)) = Ok (SessionRequest_Baggage sr)
      | TestcasesBody _ => True
      end
  | _ => True
  end.

(** A read of [run] is of the configured input: stdin for ["-"], the named
    file otherwise. *)
Definition reads_configured_input (c : Config) (ev : Event) : Prop :=
  match ev with
  | ReadStdin => cfg_xmlFile c = "-"
  | ReadFile p => p = cfg_xmlFile c /\ p <> "-"
  | HttpDo _ => True
  end.

(** The sample report, decoded. *)
Definition sample_report : TestSuites :=
  match unmarshal_TestSuites sample_root with
  | Ok ts => ts
  | Err _ => {| TestSuites_TestSuites := [] |}
  end.

(** A library whose JSON decoder rejects every baggage, and a
    configuration that passes one. *)
Definition lib_badjson : GoLib :=
  {| xml_root := xml_root lib0;
     json_decode_session := json_decode_session lib0;
     json_unmarshal_baggage := fun _ => Err "unexpected end of JSON input";
     url_parse_error := url_parse_error lib0 |}.

Definition cfg_badjson : Config :=
  {| cfg_endpoint := "https://greener.example";
     cfg_apiKey := "key";
     cfg_xmlFile := "-";
     cfg_sessionID := "";
     cfg_sessionDescription := "";
     cfg_sessionLabels := "";
     cfg_sessionBaggage := "{" |}.

Definition in_int64 (z : Z) : Prop := (- 2 ^ 63 <= z < 2 ^ 63)%Z.

(** The child elements of an XML element with a given local name. *)
Definition is_elem (name : string) (n : Node) : bool :=
  match n with Element k _ _ => String.eqb k name | _ => false end.

Definition child_elems (name : string) (kids : list Node)
    : list (list (string * string) * list Node) :=
  flat_map (fun n => match n with
                     | Element k attrs sub =>
                         if String.eqb k name then [(attrs, sub)] else []
                     | _ => []
                     end) kids.

Definition has_child (name : string) (kids : list Node) : bool :=
  existsb (is_elem name) kids.

(** The attributes a [<testsuite>] start tag maps to fields. *)
Definition suite_attr_known (a : string * string) : bool :=
  let '(k, _) := a in
  String.eqb k "name" || String.eqb k "tests" || String.eqb k "failures"
  || String.eqb k "errors" || String.eqb k "skipped" || String.eqb k "time"
  || String.eqb k "timestamp".

(** The four [int] counts of a suite are 64-bit signed integers. *)
Definition suite_counts_int64 (su : TestSuite) : Prop :=
  in_int64 (TestSuite_Tests su) /\ in_int64 (TestSuite_Failures su) /\
  in_int64 (TestSuite_Errors su) /\ in_int64 (TestSuite_Skipped su).

(** A suite with the largest and the smallest counts [int64] holds. *)
Definition big_count_root : Node :=
  Element "testsuites" []
    [Element "testsuite" [("name", "big"); ("tests", " 9223372036854775807 ");
                          ("failures", "-9223372036854775808"); ("errors", "")] []].

Definition big_count_report : TestSuites :=
  {| TestSuites_TestSuites :=
       [{| TestSuite_Name := "big"; TestSuite_Tests := 9223372036854775807;
           TestSuite_Failures := -9223372036854775808; TestSuite_Errors := 0;
           TestSuite_Skipped := 0; TestSuite_Time := "";
           TestSuite_Timestamp := ""; TestSuite_TestCases := [] |}] |}.

(** A suite with an unknown attribute, properties, text and a comment
    between its cases. *)
Definition mixed_suite_attrs : list (string * string) :=
  [("name", "pkg"); ("hostname", "ci-1"); ("tests", "2"); ("time", "0.5")].

Definition mixed_suite_kids : list Node :=
  [Element "properties" [] [Element "property" [("name", "go")] []];
   Element "testcase" [("name", "TestA")] [];
   CharData newline; Comment "retry";
   Element "testcase" [("name", "TestB")] [Element "skipped" [] []];
   Element "system-out" [] [CharData "log"]].

Definition mixed_suite : TestSuite :=
  {| TestSuite_Name := "pkg"; TestSuite_Tests := 2; TestSuite_Failures := 0;
     TestSuite_Errors := 0; TestSuite_Skipped := 0; TestSuite_Time := "0.5";
     TestSuite_Timestamp := "";
     TestSuite_TestCases :=
       [{| TestCase_Name := "TestA"; TestCase_Classname := ""; TestCase_Time := "";
           TestCase_Failure := None; TestCase_Error := None; TestCase_Skipped := None |};
        {| TestCase_Name := "TestB"; TestCase_Classname := ""; TestCase_Time := "";
           TestCase_Failure := None; TestCase_Error := None;
           TestCase_Skipped := Some {| Skipped_Message := "" |} |}] |}.

(** Root children: the mixed suite, an unknown element and an empty suite. *)
Definition mixed_root_kids : list Node :=
  [Element "testsuite" mixed_suite_attrs mixed_suite_kids;
   Element "metadata" [] [];
   Element "testsuite" [("name", "empty")] []].

Definition mixed_report : TestSuites :=
  {| TestSuites_TestSuites :=
       [mixed_suite;
        {| TestSuite_Name := "empty"; TestSuite_Tests := 0; TestSuite_Failures := 0;
           TestSuite_Errors := 0; TestSuite_Skipped := 0; TestSuite_Time := "";
           TestSuite_Timestamp := ""; TestSuite_TestCases := [] |}] |}.

(** The children of [sample_root]. *)
Definition sample_root_kids : list Node :=
  match sample_root with Element _ _ kids => kids | _ => [] end.

(** A Go pointer is non-nil. *)
Definition is_present {A} (o : option A) : bool :=
  match o with Some _ => true | None => false end.

(** ** Appending loops *)

Lemma fold_left_snoc {A B} (step : list B -> A -> list B) (f : A -> list B)
    (Hstep : forall acc x, step acc x = (acc ++ f x)%list) :
  forall l acc, fold_left step l acc = (acc ++ flat_map f l)%list.
Proof.
  induction l as [|x l IH]; intros acc; simpl.
  - now rewrite app_nil_r.
  - rewrite IH, Hstep. now rewrite app_assoc.
Qed.

Lemma flat_map_single {A B} (f : A -> B) (l : list A) :
  flat_map (fun x => [f x]) l = map f l.
Proof. induction l as [|x l IH]; simpl; congruence. Qed.

Lemma build_testcases_flat (sid : string) (ts : TestSuites) :
  build_testcases sid ts =
  flat_map (fun suite => map (case_record sid suite) (TestSuite_TestCases suite))
           (TestSuites_TestSuites ts).
Proof.
  unfold build_testcases.
  rewrite (fold_left_snoc _ (fun suite => map (case_record sid suite)
                                              (TestSuite_TestCases suite))).
  - reflexivity.
  - intros acc suite.
    rewrite (fold_left_snoc _ (fun tc => [case_record sid suite tc])).
    + now rewrite flat_map_single.
    + intros acc' tc. unfold case_record.
      destruct (TestCase_Failure tc); [reflexivity|].
      destruct (TestCase_Error tc); [reflexivity|].
      destruct (TestCase_Skipped tc); reflexivity.
Qed.

Lemma length_flat_map_map {A B C} (g : A -> list B) (f : A -> B -> C) (l : list A) :
  List.length (flat_map (fun a => map (f a) (g a)) l) =
  list_sum (map (fun a => List.length (g a)) l).
Proof.
  induction l as [|a l IH]; simpl; [reflexivity|].
  now rewrite length_app, length_map, IH.
Qed.

Lemma map_flat_map_map {A B C D} (g : A -> list B) (f : A -> B -> C) (h : C -> D)
    (l : list A) :
  map h (flat_map (fun a => map (f a) (g a)) l) =
  flat_map (fun a => map (fun b => h (f a b)) (g a)) l.
Proof.
  induction l as [|a l IH]; simpl; [reflexivity|].
  now rewrite map_app, map_map, IH.
Qed.

(** ** C1 *)

(** C1: [submitResults] builds exactly one record per case: as many
    records as cases across all suites, listed suite by suite and, within a
    suite, case by case (each record names its suite, case and class). *)
Theorem build_testcases_one_per_case (sid : string) (ts : TestSuites) :
  List.length (build_testcases sid ts) = total_cases ts /\
  map (fun r => (Testsuite r, TestcaseName r, TestcaseClassname r))
      (build_testcases sid ts) =
  flat_map (fun suite => map (fun tc => (TestSuite_Name suite, TestCase_Name tc,
                                         TestCase_Classname tc))
                             (TestSuite_TestCases suite))
           (TestSuites_TestSuites ts).
Proof.
  rewrite build_testcases_flat. split.
  - apply length_flat_map_map.
  - rewrite map_flat_map_map. apply flat_map_ext. intros suite.
    apply map_ext. intros tc. unfold case_record.
    destruct (TestCase_Failure tc); [reflexivity|].
    destruct (TestCase_Error tc); [reflexivity|].
    destruct (TestCase_Skipped tc); reflexivity.
Qed.

(** ** C2 *)

(** C2: the status and output of every record follow the spec's precedence:
    a failure gives ["fail"] and ["Failure: {message}\n{body}"], else an
    error gives ["error"] and ["Error: {message}\n{body}"], else a skipped
    detail gives ["skip"] and its message exactly, else ["pass"] and [""]. *)
Theorem build_testcases_status_output (sid : string) (ts : TestSuites) :
  map (fun r => (Status r, Output r)) (build_testcases sid ts) =
  flat_map (fun suite => map spec_status_output (TestSuite_TestCases suite))
           (TestSuites_TestSuites ts).
Proof.
  rewrite build_testcases_flat, map_flat_map_map.
  apply flat_map_ext. intros suite. apply map_ext. intros tc.
  unfold case_record, spec_status_output.
  destruct (TestCase_Failure tc); [reflexivity|].
  destruct (TestCase_Error tc); [reflexivity|].
  destruct (TestCase_Skipped tc); reflexivity.
Qed.

(** ** C5 *)

(** C5: for a report with no case at all, [submitResults] builds no
    record, performs no request and returns success. *)
Theorem submitResults_empty_report (lib : GoLib) (w : World) (r : Reporter)
    (ts : TestSuites) (Hempty : total_cases ts = 0%nat) :
  build_testcases (sessionId r) ts = [] /\
  submitResults lib w r ts = (Ok tt, []).
Proof.
  assert (Hb : build_testcases (sessionId r) ts = []).
  { apply length_zero_iff_nil.
    destruct (build_testcases_one_per_case (sessionId r) ts) as [-> _].
    exact Hempty. }
  split; [exact Hb|].
  unfold submitResults. now rewrite Hb.
Qed.

(** Witness for C5: a report whose only suite has no case. *)
Lemma submitResults_empty_report_witness :
  total_cases empty_report = 0%nat /\
  build_testcases (sessionId reporter0) empty_report = [] /\
  submitResults lib0 w0 reporter0 empty_report = (Ok tt, []).
Proof.
  split; [reflexivity|].
  apply (submitResults_empty_report lib0 w0 reporter0 empty_report).
  reflexivity.
Defined.

(** The scenario of spec section 8, end to end from the decoded XML. *)
Example sample_records :
  match unmarshal_TestSuites sample_root with
  | Ok ts =>
      (map (fun r => (Testsuite r, TestcaseName r, Status r, Output r))
          (build_testcases "s-1" ts)) =
      [("pkg", "TestA", "pass", "");
       ("pkg", "TestB", "fail", "Failure: assert failed" ++ newline ++ "got 1 want 2")]
  | Err _ => False
  end.
Proof. vm_compute. reflexivity. Qed.

(** ** The session stage *)

Lemma createSession_eq (lib : GoLib) (w : World) (r : Reporter) :
  createSession lib w r =
  match url_parse_error lib (URL (session_http_request r)) with
  | Some e => (Err (wrap_msg "create session request" e), [])
  | None =>
      match http_do w (session_http_request r) with
      | TransportError e =>
          (Err (wrap_msg "send session request" e), [HttpDo (session_http_request r)])
      | Response status body =>
          if negb (Z.eqb status 201) then
            (Err ("create session failed: status=" ++ itoa status ++ " body=" ++ body),
             [HttpDo (session_http_request r)])
          else
            match json_decode_session lib body with
            | Err e => (Err (wrap_msg "decode session response" e),
                        [HttpDo (session_http_request r)])
            | Ok sr => (Ok (with_sessionId r (SessionResponse_Id sr)),
                        [HttpDo (session_http_request r)])
            end
      end
  end.
Proof.
  unfold createSession, client_Do, bind, fail, ret.
  destruct (url_parse_error lib (URL (session_http_request r))); [reflexivity|].
  destruct (http_do w (session_http_request r)) as [e|status body]; [reflexivity|].
  destruct (negb (Z.eqb status 201)); [reflexivity|].
  destruct (json_decode_session lib body); reflexivity.
Qed.

Lemma parse_baggage_ok (lib : GoLib) (w : World) (s : string) (bg : Baggage) :
  fst (parse_baggage lib s) = Ok bg -> parse_baggage lib s = (Ok bg, []).
Proof.
  unfold parse_baggage, ret, fail.
  destruct (String.eqb s "");
    [|destruct (json_unmarshal_baggage lib s)];
    intros H; simpl in H; inversion H; reflexivity.
Qed.

(** [run] up to the end of the session stage. *)
Lemma run_eq (lib : GoLib) (w : World) (c : Config) (bg : Baggage) :
  fst (parse_baggage lib (cfg_sessionBaggage c)) = Ok bg ->
  run lib w c =
  bind (wrap "create session" (createSession lib w (run_reporter c bg)))
       (run_after_session lib w c).
Proof.
  intros Hbg. unfold run. rewrite (parse_baggage_ok lib w _ bg Hbg).
  unfold bind at 1. fold (run_reporter c bg).
  destruct (bind _ _) as [res evs]. reflexivity.
Qed.

(** ** C6 *)

(** C6: each of the three failures of [createSession] (transport error,
    a status other than 201 Created, an undecodable body) ends the run with
    an error labelled ["create session: "]; the non-Created one carries the
    status and the body; the session request is the only request made, so
    no submission is attempted. *)
Theorem createSession_failures_abort_run (lib : GoLib) (w : World) (c : Config)
    (bg : Baggage)
    (Hbag : fst (parse_baggage lib (cfg_sessionBaggage c)) = Ok bg)
    (Hurl : url_parse_error lib (URL (session_http_request (run_reporter c bg))) = None) :
  let req := session_http_request (run_reporter c bg) in
  (forall e, http_do w req = TransportError e ->
     run lib w c = (Err ("create session: send session request: " ++ e), [HttpDo req])) /\
  (forall status body, http_do w req = Response status body -> status <> 201%Z ->
     run lib w c =
     (Err ("create session: create session failed: status=" ++ itoa status
           ++ " body=" ++ body), [HttpDo req])) /\
  (forall body e, http_do w req = Response 201 body ->
     json_decode_session lib body = Err e ->
     run lib w c = (Err ("create session: decode session response: " ++ e), [HttpDo req])).
Proof.
  intros req. rewrite (run_eq lib w c bg Hbag), createSession_eq, Hurl.
  split; [|split].
  - intros e He. fold req. rewrite He. reflexivity.
  - intros status body Hr Hne. fold req. rewrite Hr.
    apply Z.eqb_neq in Hne. rewrite Hne. reflexivity.
  - intros body e Hr Hd. fold req. rewrite Hr, Hd. reflexivity.
Qed.

(** Witness for C6: a server answering 500. *)
Lemma createSession_failures_abort_run_witness :
  fst (parse_baggage lib0 (cfg_sessionBaggage cfg0)) = Ok None /\
  url_parse_error lib0 (URL (session_http_request (run_reporter cfg0 None))) = None /\
  run lib0 w500 cfg0 =
  (Err ("create session: create session failed: status=" ++ itoa 500
        ++ " body=" ++ "internal error"),
   [HttpDo (session_http_request (run_reporter cfg0 None))]).
Proof.
  split; [reflexivity|]. split; [reflexivity|].
  destruct (createSession_failures_abort_run lib0 w500 cfg0 None eq_refl eq_refl)
    as [_ [H _]].
  apply H; [reflexivity|discriminate].
Defined.

(** ** C9 *)

(** C9: the only request [createSession] can send is the session request,
    and its description is ["JUnit XML test report"] when the reporter's
    description is empty and the reporter's description unchanged
    otherwise. *)
Theorem createSession_description (lib : GoLib) (w : World) (r : Reporter) :
  Forall (fun ev =>
            match ev with
            | HttpDo req =>
                match ReqBody req with
                | SessionBody sr =>
                    SessionRequest_Description sr =
                    (if String.eqb (sessionDescription r) "" then
                       "JUnit XML test report"
                     else sessionDescription r)
                | TestcasesBody _ => False
                end
            | _ => False
            end)
         (snd (createSession lib w r)).
Proof.
  assert (Hd : SessionRequest_Description (session_request r) =
               (if String.eqb (sessionDescription r) "" then
                  "JUnit XML test report" else sessionDescription r)).
  { unfold session_request; simpl.
    destruct (String.eqb (sessionDescription r) ""); reflexivity. }
  rewrite createSession_eq.
  destruct (url_parse_error lib (URL (session_http_request r))); [constructor|].
  destruct (http_do w (session_http_request r)) as [e|status body];
    [|destruct (negb (Z.eqb status 201));
      [|destruct (json_decode_session lib body)]];
    repeat constructor; exact Hd.
Qed.

(** ** C7 *)

Lemma build_testcases_sessionId (sid : string) (ts : TestSuites) :
  Forall (fun t => SessionId t = sid) (build_testcases sid ts).
Proof.
  rewrite build_testcases_flat. apply Forall_flat_map.
  apply Forall_forall. intros suite _. apply Forall_map.
  apply Forall_forall. intros tc _. unfold case_record.
  destruct (TestCase_Failure tc); [reflexivity|].
  destruct (TestCase_Error tc); [reflexivity|].
  destruct (TestCase_Skipped tc); reflexivity.
Qed.

(** The requests [submitResults] makes carry the reporter's session id in
    every record. *)
Lemma submitResults_sessionId (lib : GoLib) (w : World) (r : Reporter)
    (ts : TestSuites) :
  Forall (carries_session_id (sessionId r)) (snd (submitResults lib w r ts)).
Proof.
  unfold submitResults, ret, fail, bind, client_Do.
  destruct (Nat.eqb _ 0); [constructor|].
  destruct (url_parse_error lib _); [constructor|].
  destruct (http_do w _) as [e|status body];
    [|destruct (negb (Z.eqb status 201))];
    simpl; repeat constructor; apply build_testcases_sessionId.
Qed.

Lemma snd_wrap {A} (prefix : string) (m : M A) : snd (wrap prefix m) = snd m.
Proof. destruct m as [[a|e] evs]; reflexivity. Qed.

Lemma snd_bind_ok {A B} (a : A) (evs : list Event) (f : A -> M B) :
  snd (bind (Ok a, evs) f) = (evs ++ snd (f a))%list.
Proof. simpl. destruct (f a); reflexivity. Qed.

Lemma Forall_bind {A B} (P : Event -> Prop) (m : M A) (f : A -> M B) :
  Forall P (snd m) -> (forall a, Forall P (snd (f a))) -> Forall P (snd (bind m f)).
Proof.
  intros Hm Hf. destruct m as [[a|e] evs]; simpl in *; [|exact Hm].
  specialize (Hf a). destruct (f a) as [r evs']. simpl in *.
  apply Forall_app; split; assumption.
Qed.

Lemma Forall_bind_post {A B} (P : Event -> Prop) (Q : A -> Prop)
    (m : M A) (f : A -> M B) :
  Forall P (snd m) ->
  (match fst m with Ok a => Q a | Err _ => True end) ->
  (forall a, Q a -> Forall P (snd (f a))) ->
  Forall P (snd (bind m f)).
Proof.
  intros Hm HQ Hf. destruct m as [[a|e] evs]; simpl in *; [|exact Hm].
  specialize (Hf a HQ). destruct (f a) as [r evs']. simpl in *.
  apply Forall_app; split; assumption.
Qed.

(** C7: once [createSession] gets 201 Created and decodes the body, the
    reporter's session id is the decoded one, whatever id the caller gave,
    and every record of every submission request of the run carries it. *)
Theorem session_id_from_response (lib : GoLib) (w : World) (c : Config)
    (bg : Baggage) (body : string) (sr : SessionResponse)
    (Hbag : fst (parse_baggage lib (cfg_sessionBaggage c)) = Ok bg)
    (Hurl : url_parse_error lib (URL (session_http_request (run_reporter c bg))) = None)
    (Hresp : http_do w (session_http_request (run_reporter c bg)) = Response 201 body)
    (Hdec : json_decode_session lib body = Ok sr) :
  createSession lib w (run_reporter c bg) =
  (Ok (with_sessionId (run_reporter c bg) (SessionResponse_Id sr)),
   [HttpDo (session_http_request (run_reporter c bg))]) /\
  Forall (carries_session_id (SessionResponse_Id sr)) (snd (run lib w c)).
Proof.
  assert (Hcs : createSession lib w (run_reporter c bg) =
                (Ok (with_sessionId (run_reporter c bg) (SessionResponse_Id sr)),
                 [HttpDo (session_http_request (run_reporter c bg))])).
  { rewrite createSession_eq, Hurl, Hresp, Hdec. reflexivity. }
  split; [exact Hcs|].
  rewrite (run_eq lib w c bg Hbag), Hcs. cbn [wrap].
  rewrite snd_bind_ok. apply Forall_app. split; [repeat constructor|].
  unfold run_after_session.
  apply Forall_bind; [unfold read_input|intros xmlData].
  { destruct (String.eqb (cfg_xmlFile c) "-");
      [destruct (stdin_bytes w)|destruct (read_file w (cfg_xmlFile c))];
      repeat constructor. }
  apply Forall_bind; [destruct (xml_Unmarshal lib xmlData); constructor|intros ts].
  rewrite snd_wrap.
  exact (submitResults_sessionId lib w
           (with_sessionId (run_reporter c bg) (SessionResponse_Id sr)) ts).
Qed.

(** Witness for C7: session [s-1] is created although the caller passed
    [client-id]; the two records of the sample report are then submitted. *)
Lemma session_id_from_response_witness :
  fst (parse_baggage lib0 (cfg_sessionBaggage cfg0)) = Ok None /\
  url_parse_error lib0 (URL (session_http_request (run_reporter cfg0 None))) = None /\
  http_do w0 (session_http_request (run_reporter cfg0 None)) = Response 201 "s-1" /\
  json_decode_session lib0 "s-1" = Ok {| SessionResponse_Id := "s-1" |} /\
  createSession lib0 w0 (run_reporter cfg0 None) =
  (Ok (with_sessionId (run_reporter cfg0 None) "s-1"),
   [HttpDo (session_http_request (run_reporter cfg0 None))]) /\
  Forall (carries_session_id "s-1") (snd (run lib0 w0 cfg0)).
Proof.
  do 4 (split; [reflexivity|]).
  exact (session_id_from_response lib0 w0 cfg0 None "s-1"
           {| SessionResponse_Id := "s-1" |} eq_refl eq_refl eq_refl eq_refl).
Defined.

Example run_sample_submits_two_records :
  List.length (snd (run lib0 w0 cfg0)) = 3%nat.
Proof. vm_compute. reflexivity. Qed.

(** ** C3 *)








(** ** C10 *)

Lemma substring_0_app (e s : string) :
  substring 0 (String.length e) (e ++ s) = e.
Proof.
  induction e as [|ch e IH]; simpl; [now destruct s|].
  now rewrite IH.
Qed.

Lemma length_app_slash (e : string) :
  String.length (e ++ "/") = S (String.length e).
Proof. induction e as [|ch e IH]; simpl; congruence. Qed.

Lemma substring_last (e : string) :
  substring (String.length e) 1 (e ++ "/") = "/".
Proof. induction e as [|ch e IH]; simpl; [reflexivity|exact IH]. Qed.

Lemma TrimSuffix_slash (e : string) : strings.TrimSuffix (e ++ "/") "/" = e.
Proof.
  unfold strings.TrimSuffix, strings.HasSuffix, strings.slice.
  rewrite length_app_slash. simpl String.length.
  replace (S (String.length e) - 1)%nat with (String.length e) by lia.
  replace (S (String.length e) - String.length e)%nat with 1%nat by lia.
  rewrite substring_last. simpl.
  replace (String.length e - 0)%nat with (String.length e) by lia.
  apply substring_0_app.
Qed.

Lemma TrimSuffix_no_slash (e : string) :
  strings.HasSuffix e "/" = false -> strings.TrimSuffix e "/" = e.
Proof. intros H. unfold strings.TrimSuffix. now rewrite H. Qed.

(** Every request of a run goes to [endpoint r] followed by one of the two
    ingress paths. *)
Definition request_url_in (e : string) (ev : Event) : Prop :=
  match ev with
  | HttpDo req => URL req = e ++ sessions_path \/ URL req = e ++ testcases_path
  | _ => True
  end.

Lemma run_urls (lib : GoLib) (w : World) (c : Config) :
  Forall (request_url_in (strings.TrimSuffix (cfg_endpoint c) "/")) (snd (run lib w c)).
Proof.
  unfold run. apply Forall_bind; [|intros bg].
  { unfold parse_baggage. destruct (String.eqb _ "");
      [|destruct (json_unmarshal_baggage lib _)]; constructor. }
  apply (Forall_bind_post _
           (fun r' => endpoint r' = strings.TrimSuffix (cfg_endpoint c) "/")).
  { rewrite snd_wrap, createSession_eq.
    destruct (url_parse_error lib _); [constructor|].
    destruct (http_do w _) as [e|status body];
      [|destruct (negb (Z.eqb status 201)); [|destruct (json_decode_session lib body)]];
      repeat constructor; left; reflexivity. }
  { destruct (createSession lib w _) as [[r'|e] evs] eqn:Hcs; [|exact I].
    simpl. revert Hcs. rewrite createSession_eq.
    destruct (url_parse_error lib _); [discriminate|].
    destruct (http_do w _) as [e|status body]; [discriminate|].
    destruct (negb (Z.eqb status 201)); [discriminate|].
    destruct (json_decode_session lib body); [|discriminate].
    intros H; injection H as <- _. reflexivity. }
  intros r' Hr'. unfold read_input.
  apply Forall_bind; [|intros xmlData].
  { destruct (String.eqb _ "-");
      [destruct (stdin_bytes w)|destruct (read_file w _)]; repeat constructor. }
  apply Forall_bind; [destruct (xml_Unmarshal lib xmlData); constructor|intros ts].
  rewrite snd_wrap. unfold submitResults, ret, fail, bind, client_Do.
  destruct (Nat.eqb _ 0); [constructor|].
  destruct (url_parse_error lib _); [constructor|].
  destruct (http_do w _) as [e|status body];
    [|destruct (negb (Z.eqb status 201))]; simpl;
    (constructor; [right; simpl; now rewrite Hr'|constructor]).
Qed.

Lemma run_unfold (lib : GoLib) (w : World) (c : Config) :
  run lib w c =
  bind (parse_baggage lib (cfg_sessionBaggage c))
       (fun bg => bind (wrap "create session" (createSession lib w (run_reporter c bg)))
                       (run_after_session lib w c)).
Proof. reflexivity. Qed.

Lemma run_after_session_endpoint (lib : GoLib) (w : World) (c : Config) (e : string) :
  run_after_session lib w (with_endpoint c e) = run_after_session lib w c.
Proof. reflexivity. Qed.

(** C10: [NewReporter] drops exactly one trailing ['/'] from any
    endpoint (so [x//] is stored as [x/]) and keeps an endpoint without a
    trailing slash as it is; such an endpoint and the same endpoint with
    one trailing slash give the same run, and every request of it goes to
    [{endpoint}/api/v1/ingress/sessions] or
    [{endpoint}/api/v1/ingress/testcases]. *)
Theorem endpoint_trailing_slash (e : string) (c : Config) (lib : GoLib) (w : World) :
  (forall k id d ls bg, endpoint (NewReporter (e ++ "/") k id d ls bg) = e) /\
  (strings.HasSuffix e "/" = false ->
   (forall k id d ls bg, endpoint (NewReporter e k id d ls bg) = e) /\
   run lib w (with_endpoint c (e ++ "/")) = run lib w (with_endpoint c e) /\
   Forall (request_url_in e) (snd (run lib w (with_endpoint c e)))).
Proof.
  split; [intros; apply TrimSuffix_slash|].
  intros Hnoslash.
  split; [intros; apply (TrimSuffix_no_slash e Hnoslash)|]. split.
  - rewrite !run_unfold, !run_after_session_endpoint.
    change (cfg_sessionBaggage (with_endpoint c ?x)) with (cfg_sessionBaggage c).
    destruct (parse_baggage lib (cfg_sessionBaggage c)) as [[bg|err] evs];
      [|reflexivity].
    assert (Hr : run_reporter (with_endpoint c (e ++ "/")) bg =
                 run_reporter (with_endpoint c e) bg).
    { unfold run_reporter, NewReporter. simpl.
      now rewrite TrimSuffix_slash, (TrimSuffix_no_slash e Hnoslash). }
    unfold bind at 1 3. rewrite Hr. reflexivity.
  - pose proof (run_urls lib w (with_endpoint c e)) as H. simpl in H.
    now rewrite (TrimSuffix_no_slash e Hnoslash) in H.
Qed.

(** Witness for C10: the endpoint of [cfg0] with and without a slash, and
    an endpoint with two slashes, of which one is dropped. *)
Lemma endpoint_trailing_slash_witness :
  strings.HasSuffix "https://greener.example" "/" = false /\
  endpoint (NewReporter "https://greener.example//" "key" "" "" [] None) =
    "https://greener.example/" /\
  run lib0 w0 (with_endpoint cfg0 ("https://greener.example" ++ "/")) =
  run lib0 w0 (with_endpoint cfg0 "https://greener.example") /\
  Forall (request_url_in "https://greener.example")
         (snd (run lib0 w0 (with_endpoint cfg0 "https://greener.example"))).
Proof.
  split; [reflexivity|]. split.
  - exact (proj1 (endpoint_trailing_slash "https://greener.example/" cfg0 lib0 w0)
             "key" "" "" [] None).
  - apply (proj2 (endpoint_trailing_slash "https://greener.example" cfg0 lib0 w0)).
    reflexivity.
Defined.

(** ** C8 *)

Lemma Cut_eq_index (t : string) :
  strings.Cut t "=" =
  match String.index 0 "=" t with
  | Some i => (substring 0 i t, substring (S i) (String.length t - S i) t, true)
  | None => (t, "", false)
  end.
Proof.
  induction t as [|ch t IH]; [reflexivity|].
  assert (Hcut : strings.Cut (String ch t) "=" =
    if String.prefix "=" (String ch t)
    then ("", substring 1 (String.length t - 0) (String ch t), true)
    else match strings.Cut t "=" with
         | (before, after, true) => (String ch before, after, true)
         | (_, _, false) => (String ch t, "", false)
         end) by reflexivity.
  assert (Hidx : String.index 0 "=" (String ch t) =
    if String.prefix "=" (String ch t) then Some 0%nat
    else match String.index 0 "=" t with
         | Some n => Some (S n)
         | None => None
         end) by reflexivity.
  assert (Hpre : String.prefix "=" (String ch t) =
                 if ascii_dec "=" ch then true else false).
  { unfold String.prefix. destruct (ascii_dec "=" ch); [now destruct t|reflexivity]. }
  rewrite Hcut, Hidx, Hpre.
  destruct (ascii_dec "=" ch) as [Heq|Hne].
  - reflexivity.
  - rewrite IH. destruct (String.index 0 "=" t); reflexivity.
Qed.

Lemma Split_not_nil (s : string) (sep : ascii) : strings.Split s sep <> [].
Proof.
  destruct s as [|ch s]; simpl; [discriminate|].
  destruct (Ascii.eqb ch sep); [discriminate|].
  destruct (strings.Split s sep); discriminate.
Qed.

Lemma Split_cons (ch : ascii) (s : string) (sep : ascii) :
  strings.Split (String ch s) sep =
  if Ascii.eqb ch sep then EmptyString :: strings.Split s sep
  else match strings.Split s sep with
       | t :: ts => String ch t :: ts
       | [] => [String ch EmptyString]
       end.
Proof. reflexivity. Qed.

Lemma Split_concat (s : string) :
  String.concat "," (strings.Split s ","%char) = s.
Proof.
  induction s as [|ch s IH]; [reflexivity|].
  rewrite Split_cons.
  pose proof (Split_not_nil s ","%char) as Hn.
  destruct (Ascii.eqb ch ",") eqn:Hc.
  - apply Ascii.eqb_eq in Hc. subst ch.
    destruct (strings.Split s ","%char) as [|t ts]; [congruence|].
    change (String.concat "," ("" :: t :: ts))
      with ("" ++ "," ++ String.concat "," (t :: ts)).
    now rewrite IH.
  - destruct (strings.Split s ","%char) as [|t ts]; [congruence|].
    rewrite <- IH. destruct ts; reflexivity.
Qed.

Lemma Split_no_comma (s : string) :
  Forall (fun t => String.index 0 "," t = None) (strings.Split s ","%char).
Proof.
  induction s as [|ch s IH]; [repeat constructor|].
  rewrite Split_cons. destruct (Ascii.eqb ch ",") eqn:Hc.
  - constructor; [reflexivity|exact IH].
  - pose proof (Split_not_nil s ","%char) as Hn.
    destruct (strings.Split s ","%char) as [|t ts]; [congruence|].
    inversion IH as [|? ? Ht Hts]; subst.
    constructor; [|exact Hts].
    change (String.index 0 "," (String ch t)) with
      (if String.prefix "," (String ch t) then Some 0%nat
       else match String.index 0 "," t with
            | Some n => Some (S n)
            | None => None
            end).
    rewrite Ht. unfold String.prefix.
    destruct (ascii_dec "," ch) as [E|_]; [|reflexivity].
    subst ch. discriminate Hc.
Qed.

(** C8: [parseLabels] splits on commas (the tokens contain no comma and
    join back to the input), trims each token, drops the blank ones, and
    makes a key-only label of a token without ['='] and a key/value label
    split at the first ['='] otherwise; ["ci,tag=value, ,env="] gives
    [ci], [tag=value] and [env] with the empty value. *)
Theorem parseLabels_tokens :
  (forall s, String.concat "," (strings.Split s ","%char) = s /\
             Forall (fun t => String.index 0 "," t = None) (strings.Split s ","%char)) /\
  (forall s, parseLabels s = spec_parseLabels s) /\
  parseLabels "ci,tag=value, ,env=" =
  [{| Label_Key := "ci"; Label_Value := "" |};
   {| Label_Key := "tag"; Label_Value := "value" |};
   {| Label_Key := "env"; Label_Value := "" |}].
Proof.
  split; [intros s; split; [apply Split_concat|apply Split_no_comma]|].
  split; [|vm_compute; reflexivity].
  intros s. unfold parseLabels, spec_parseLabels.
  destruct (String.eqb s "") eqn:Hs.
  - apply String.eqb_eq in Hs. subst s. vm_compute. reflexivity.
  - rewrite (fold_left_snoc _ spec_label); [reflexivity|].
    intros acc tok. unfold spec_label. cbv zeta.
    destruct (String.eqb (strings.TrimSpace tok) ""); [now rewrite app_nil_r|].
    rewrite Cut_eq_index.
    destruct (String.index 0 "=" (strings.TrimSpace tok)); reflexivity.
Qed.

(** ** C4 *)

Lemma set_suite_attr_ok (su : TestSuite) (k v : string) :
  is_ok (set_suite_attr su (k, v)) = negb (count_attr k) || int_text_ok v.
Proof.
  unfold set_suite_attr, count_attr, int_text_ok. destruct su.
  destruct (String.eqb k "name") eqn:En.
  { apply String.eqb_eq in En. subst k. reflexivity. }
  destruct (String.eqb k "tests"); [simpl; destruct (copy_int v); reflexivity|].
  destruct (String.eqb k "failures"); [simpl; destruct (copy_int v); reflexivity|].
  destruct (String.eqb k "errors"); [simpl; destruct (copy_int v); reflexivity|].
  destruct (String.eqb k "skipped"); [simpl; destruct (copy_int v); reflexivity|].
  destruct (String.eqb k "time"); [reflexivity|].
  destruct (String.eqb k "timestamp"); reflexivity.
Qed.

Lemma set_suite_attrs_ok (attrs : list (string * string)) :
  forall su, is_ok (set_suite_attrs su attrs) = suite_attrs_ok attrs.
Proof.
  induction attrs as [|[k v] attrs IH]; intros su; [reflexivity|].
  change (set_suite_attrs su ((k, v) :: attrs)) with
    (match set_suite_attr su (k, v) with
     | Ok su' => set_suite_attrs su' attrs
     | Err e => Err e
     end).
  change (suite_attrs_ok ((k, v) :: attrs)) with
    ((negb (count_attr k) || int_text_ok v) && suite_attrs_ok attrs).
  pose proof (set_suite_attr_ok su k v) as H.
  destruct (set_suite_attr su (k, v)) as [su'|e]; simpl in H; rewrite <- H.
  - apply IH.
  - reflexivity.
Qed.

Lemma unmarshal_TestSuite_ok (attrs : list (string * string)) (kids : list Node) :
  is_ok (unmarshal_TestSuite attrs kids) = suite_attrs_ok attrs.
Proof.
  unfold unmarshal_TestSuite. rewrite <- (set_suite_attrs_ok attrs empty_suite).
  destruct (set_suite_attrs empty_suite attrs); reflexivity.
Qed.

Lemma suites_children_ok (kids : list Node) :
  forall acc, is_ok (suites_children acc kids) = forallb suite_child_ok kids.
Proof.
  induction kids as [|n kids IH]; intros acc; [reflexivity|].
  destruct n as [k attrs sub|t|t]; simpl; [|apply IH|apply IH].
  destruct (String.eqb k "testsuite"); simpl; [|apply IH].
  rewrite <- (unmarshal_TestSuite_ok attrs sub).
  destruct (unmarshal_TestSuite attrs sub); simpl; [apply IH|reflexivity].
Qed.

Lemma set_suite_attr_zero (k k' v : string) (su su' : TestSuite) :
  count_attr k = true -> (k' = k -> v = "") ->
  set_suite_attr su (k', v) = Ok su' ->
  count_field k su = 0%Z -> count_field k su' = 0%Z.
Proof.
  intros Hk Hv H Hz.
  destruct (String.eqb k' k) eqn:Ekk.
  - apply String.eqb_eq in Ekk. subst k'. rewrite (Hv eq_refl) in H.
    unfold count_attr in Hk.
    destruct (String.eqb k "tests") eqn:E1;
      [apply String.eqb_eq in E1; subst k|];
      [destruct su; cbn in H; injection H as <-; reflexivity|].
    destruct (String.eqb k "failures") eqn:E2;
      [apply String.eqb_eq in E2; subst k|];
      [destruct su; cbn in H; injection H as <-; reflexivity|].
    destruct (String.eqb k "errors") eqn:E3;
      [apply String.eqb_eq in E3; subst k|];
      [destruct su; cbn in H; injection H as <-; reflexivity|].
    destruct (String.eqb k "skipped") eqn:E4; [|discriminate Hk].
    apply String.eqb_eq in E4. subst k.
    destruct su; cbn in H; injection H as <-; reflexivity.
  - rewrite <- Hz. clear Hz Hv.
    destruct su as [nm te fa er sk ti tst cs].
    unfold set_suite_attr in H. cbn iota beta in H.
    unfold count_field.
    destruct (String.eqb k' "name") eqn:E1;
      [injection H as <-; reflexivity|].
    destruct (String.eqb k' "tests") eqn:E2;
      [apply String.eqb_eq in E2; subst k';
       destruct (copy_int v); [|discriminate H]; injection H as <-; cbn;
       destruct (String.eqb k "tests") eqn:F; [apply String.eqb_eq in F; subst k;
                                               discriminate Ekk|reflexivity]|].
    destruct (String.eqb k' "failures") eqn:E3;
      [apply String.eqb_eq in E3; subst k';
       destruct (copy_int v); [|discriminate H]; injection H as <-; cbn;
       destruct (String.eqb k "tests"); [reflexivity|];
       destruct (String.eqb k "failures") eqn:F; [apply String.eqb_eq in F; subst k;
                                                  discriminate Ekk|reflexivity]|].
    destruct (String.eqb k' "errors") eqn:E4;
      [apply String.eqb_eq in E4; subst k';
       destruct (copy_int v); [|discriminate H]; injection H as <-; cbn;
       destruct (String.eqb k "tests"); [reflexivity|];
       destruct (String.eqb k "failures"); [reflexivity|];
       destruct (String.eqb k "errors") eqn:F; [apply String.eqb_eq in F; subst k;
                                                discriminate Ekk|reflexivity]|].
    destruct (String.eqb k' "skipped") eqn:E5;
      [apply String.eqb_eq in E5; subst k';
       destruct (copy_int v); [|discriminate H]; injection H as <-; cbn;
       unfold count_attr in Hk;
       destruct (String.eqb k "tests") eqn:F1; [reflexivity|];
       destruct (String.eqb k "failures") eqn:F2; [reflexivity|];
       destruct (String.eqb k "errors") eqn:F3; [reflexivity|];
       destruct (String.eqb k "skipped") eqn:F;
       [apply String.eqb_eq in F; subst k; discriminate Ekk|];
       rewrite ?F1, ?F2, ?F3, ?F in Hk; cbn in Hk; discriminate Hk|].
    destruct (String.eqb k' "time"); [injection H as <-; reflexivity|].
    destruct (String.eqb k' "timestamp"); injection H as <-; reflexivity.
Qed.

Lemma set_suite_attrs_zero (k : string) (attrs : list (string * string)) :
  count_attr k = true -> (forall v, In (k, v) attrs -> v = "") ->
  forall su su', set_suite_attrs su attrs = Ok su' ->
  count_field k su = 0%Z -> count_field k su' = 0%Z.
Proof.
  intros Hk. induction attrs as [|[k' v] attrs IH]; intros Hv su su' H Hz.
  - injection H as <-. exact Hz.
  - cbn [set_suite_attrs] in H.
    destruct (set_suite_attr su (k', v)) as [su1|e] eqn:H1; [|discriminate H].
    apply (IH (fun v' Hin => Hv v' (or_intror Hin)) su1 su' H).
    apply (set_suite_attr_zero k k' v su su1 Hk); [|exact H1|exact Hz].
    intros ->. apply Hv. left. reflexivity.
Qed.

Lemma fold_suite_child_count_field (k : string) (kids : list Node) :
  forall su, count_field k (fold_left suite_child kids su) = count_field k su.
Proof.
  induction kids as [|n kids IH]; intros su; [reflexivity|].
  cbn [fold_left]. rewrite IH.
  destruct su, n as [k' attrs sub|t|t]; cbn [suite_child]; [|reflexivity|reflexivity].
  destruct (String.eqb k' "testcase"); reflexivity.
Qed.

(** C4 does not hold: a suite count with non-numeric text makes the whole
    decoding fail. *)
Lemma malformed_count_counterexample :
  unmarshal_TestSuites malformed_count_root =
  Err ("strconv.ParseInt: parsing " ++ String strconv.dq ("abc" ++ String strconv.dq "")
       ++ ": invalid syntax").
Proof. vm_compute. reflexivity. Qed.

(** C4, amended: a [<testsuites>] document decodes exactly when every
    [tests], [failures], [errors] and [skipped] attribute of every
    [<testsuite>] is empty or, trimmed, an integer [strconv.ParseInt]
    accepts in 64 bits; [time], [timestamp] and every other attribute are
    plain strings and never make the decoding fail.  A count attribute
    that is absent, or whose every occurrence is empty, gives 0 in the
    decoded suite. *)
Theorem unmarshal_TestSuites_ok (root : Node) :
  is_ok (unmarshal_TestSuites root) =
  match root with
  | Element name _ children =>
      String.eqb name "testsuites" && forallb suite_child_ok children
  | _ => false
  end /\
  (forall attrs kids su k,
     unmarshal_TestSuite attrs kids = Ok su -> count_attr k = true ->
     (forall v, In (k, v) attrs -> v = "") ->
     count_field k su = 0%Z).
Proof.
  split.
  - destruct root as [name attrs children|t|t]; [|reflexivity|reflexivity].
    simpl. destruct (String.eqb name "testsuites"); [|reflexivity].
    simpl. rewrite <- (suites_children_ok children []).
    destruct (suites_children [] children); reflexivity.
  - intros attrs kids su k H Hk Hv. unfold unmarshal_TestSuite in H.
    destruct (set_suite_attrs empty_suite attrs) as [su0|e] eqn:Hs; [|discriminate H].
    injection H as <-. rewrite fold_suite_child_count_field.
    apply (set_suite_attrs_zero k attrs Hk Hv empty_suite su0 Hs).
    unfold count_field. cbn.
    destruct (String.eqb k "tests"); [reflexivity|].
    destruct (String.eqb k "failures"); [reflexivity|].
    destruct (String.eqb k "errors"); reflexivity.
Qed.

Example int_text_ok_samples :
  map int_text_ok ["";  " 12 "; "-3"; "+7"; "abc"; "1.5"; "  ";
                   "9223372036854775807"; "9223372036854775808"] =
  [true; true; true; true; false; false; false; true; false].
Proof. vm_compute. reflexivity. Qed.

(** * Further properties of the code *)

(** ** The whole run *)

(** Case analysis over every branch of [run]: destruct the innermost
    scrutinee until the program's result and effects are explicit. *)
Ltac destruct_innermost :=
  match goal with
  | |- context [match ?x with _ => _ end] =>
      lazymatch x with
      | context [match _ with _ => _ end] => fail
      | _ => destruct x eqn:?
      end
  end.

Ltac run_cases :=
  unfold run, parse_baggage, createSession, read_input, submitResults,
    client_Do, bind, wrap, ret, fail, fst, snd;
  repeat (first [progress cbn beta iota zeta | destruct_innermost]).

(** Rewrite with the case equations that apply to the goal. *)
Ltac rewrite_cases :=
  repeat match goal with
         | H : ?x = _ |- context [?x] => rewrite H
         end.

Lemma run_events (lib : GoLib) (w : World) (c : Config) :
  Forall (run_event_ok lib c) (snd (run lib w c)).
Proof.
  run_cases; cbn [app];
    repeat (apply Forall_cons || apply Forall_nil); cbn [run_event_ok];
    try (eexists; split;
         [unfold parse_baggage, ret, fail; rewrite_cases; reflexivity
         |first [left; reflexivity | right; do 2 eexists; reflexivity]]);
    try (apply String.eqb_eq; assumption);
    try (split; [reflexivity | apply String.eqb_neq; assumption]).
Qed.

(** X1: the effects of [run] follow one of four shapes: nothing (the
    baggage or the session URL is rejected), the session request alone,
    the session request and one input read, or these followed by one
    batch request.  There is no retry and never a second batch. *)
Theorem run_trace_shape (lib : GoLib) (w : World) (c : Config) :
  trace_shape (snd (run lib w c)).
Proof.
  run_cases; repeat split.
Qed.

(** X2: every request [run] sends is a [POST] with the JSON content type
    and the configured API key in [x-api-key]. *)
Theorem run_request_headers (lib : GoLib) (w : World) (c : Config) :
  Forall (request_headers_ok (cfg_apiKey c)) (snd (run lib w c)).
Proof.
  eapply Forall_impl; [|apply (run_events lib w c)].
  intros [|p|req] H; cbn [request_headers_ok]; [exact I|exact I|].
  destruct H as (bg & _ & [-> | (id & tcs & ->)]); repeat split.
Qed.

(** X3: a run that succeeds performed at least one request (an [HttpDo]
    event), and every request it performed was answered [201 Created]. *)
Theorem run_ok_all_created (lib : GoLib) (w : World) (c : Config)
    (Hok : fst (run lib w c) = Ok tt) :
  (exists req, In (HttpDo req) (snd (run lib w c))) /\
  Forall (answered_created w) (snd (run lib w c)).
Proof.
  revert Hok. run_cases; intros Hok; try discriminate Hok; cbn [app];
    (split; [eexists; apply in_eq|]);
    repeat (apply Forall_cons || apply Forall_nil); cbn [answered_created];
    try exact I;
    repeat match goal with
           | Hs : negb (Z.eqb ?s 201) = false |- _ =>
               apply negb_false_iff, Z.eqb_eq in Hs; subst s
           end;
    eexists; eassumption.
Qed.

Lemma run_ok_all_created_witness :
  fst (run lib0 w0 cfg0) = Ok tt /\
  ((exists req, In (HttpDo req) (snd (run lib0 w0 cfg0))) /\
   Forall (answered_created w0) (snd (run lib0 w0 cfg0))).
Proof.
  split; [vm_compute; reflexivity|].
  apply run_ok_all_created. vm_compute. reflexivity.
Defined.

(** X4: an error of [run] is always one of its six stage prefixes
    followed by [": "] and the underlying message. *)
Theorem run_error_stage (lib : GoLib) (w : World) (c : Config) (e : string)
    (Herr : fst (run lib w c) = Err e) :
  exists stage msg, e = stage ++ ": " ++ msg /\ In stage (run_stages c).
Proof.
  revert Herr. run_cases; intros Herr; try discriminate Herr;
    injection Herr as <-; do 2 eexists;
    (split; [unfold wrap_msg; reflexivity
            |cbn [run_stages In]; repeat (first [left; reflexivity | right])]).
Qed.

Lemma run_error_stage_witness :
  fst (run lib0 w0 cfg_missing) =
    Err "read file report.xml: open report.xml: no such file or directory" /\
  exists stage msg,
    "read file report.xml: open report.xml: no such file or directory" =
      stage ++ ": " ++ msg /\ In stage (run_stages cfg_missing).
Proof.
  split; [vm_compute; reflexivity|].
  apply (run_error_stage lib0 w0 cfg_missing). vm_compute. reflexivity.
Defined.

(** X5: a non-empty baggage the JSON decoder rejects ends the run before
    any request or read, with the decoder's error. *)
Theorem run_bad_baggage (lib : GoLib) (w : World) (c : Config) (e : string)
    (Hne : cfg_sessionBaggage c <> "")
    (Hjson : json_unmarshal_baggage lib (cfg_sessionBaggage c) = Err e) :
  run lib w c = (Err ("parse session baggage: " ++ e), []).
Proof.
  apply String.eqb_neq in Hne.
  unfold run, parse_baggage. rewrite Hne, Hjson. reflexivity.
Qed.

Lemma run_bad_baggage_witness :
  cfg_sessionBaggage cfg_badjson <> "" /\
  json_unmarshal_baggage lib_badjson (cfg_sessionBaggage cfg_badjson) =
    Err "unexpected end of JSON input" /\
  run lib_badjson w0 cfg_badjson =
    (Err ("parse session baggage: " ++ "unexpected end of JSON input"), []).
Proof.
  split; [discriminate|]. split; [reflexivity|].
  apply run_bad_baggage; [discriminate|reflexivity].
Defined.

(** X6: with at least one record and a valid URL, [submitResults] sends
    exactly one request, the batch of all records; it succeeds exactly
    when the answer is [201 Created], and otherwise reports the transport
    error or the status and body. *)
Theorem submitResults_one_request (lib : GoLib) (w : World) (r : Reporter)
    (ts : TestSuites)
    (Hne : build_testcases (sessionId r) ts <> [])
    (Hurl : url_parse_error lib
              (URL (testcases_http_request r (build_testcases (sessionId r) ts))) = None) :
  snd (submitResults lib w r ts) =
    [HttpDo (testcases_http_request r (build_testcases (sessionId r) ts))] /\
  (fst (submitResults lib w r ts) = Ok tt <->
   exists body, http_do w (testcases_http_request r (build_testcases (sessionId r) ts))
                = Response 201 body) /\
  (forall e, http_do w (testcases_http_request r (build_testcases (sessionId r) ts))
             = TransportError e ->
   fst (submitResults lib w r ts) = Err ("send testcases request: " ++ e)) /\
  (forall status body, status <> 201%Z ->
   http_do w (testcases_http_request r (build_testcases (sessionId r) ts))
   = Response status body ->
   fst (submitResults lib w r ts) =
     Err ("submit testcases failed: status=" ++ itoa status ++ " body=" ++ body)).
Proof.
  assert (Hl : Nat.eqb (List.length (build_testcases (sessionId r) ts)) 0 = false)
    by (destruct (build_testcases (sessionId r) ts); [congruence|reflexivity]).
  unfold submitResults. cbv zeta. rewrite Hl, Hurl.
  unfold client_Do, bind, ret, fail.
  destruct (http_do w _) as [e|status body] eqn:Hd.
  - split; [reflexivity|]. split.
    + split; [discriminate|]. intros [b Hb]. discriminate Hb.
    + split; [intros e' He; injection He as <-; reflexivity|].
      intros st b _ Hb. discriminate Hb.
  - destruct (Z.eqb status 201) eqn:Hs.
    + apply Z.eqb_eq in Hs. subst status. split; [reflexivity|]. split.
      * split; [intros _; exists body; reflexivity|reflexivity].
      * split; [intros e He; discriminate He|].
        intros st b Hst Hb. injection Hb as <- <-. contradiction.
    + split; [reflexivity|]. split.
      * split; [discriminate|]. intros [b Hb]. injection Hb as -> _.
        rewrite Z.eqb_refl in Hs. discriminate Hs.
      * split; [intros e He; discriminate He|].
        intros st b _ Hb. injection Hb as <- <-. reflexivity.
Qed.

Lemma submitResults_one_request_witness :
  build_testcases (sessionId reporter0) sample_report <> [] /\
  url_parse_error lib0
    (URL (testcases_http_request reporter0
            (build_testcases (sessionId reporter0) sample_report))) = None /\
  (snd (submitResults lib0 w0 reporter0 sample_report) =
     [HttpDo (testcases_http_request reporter0
                (build_testcases (sessionId reporter0) sample_report))] /\
   (fst (submitResults lib0 w0 reporter0 sample_report) = Ok tt <->
    exists body, http_do w0 (testcases_http_request reporter0
                   (build_testcases (sessionId reporter0) sample_report))
                 = Response 201 body) /\
   (forall e, http_do w0 (testcases_http_request reporter0
                (build_testcases (sessionId reporter0) sample_report))
              = TransportError e ->
    fst (submitResults lib0 w0 reporter0 sample_report) =
      Err ("send testcases request: " ++ e)) /\
   (forall status body, status <> 201%Z ->
    http_do w0 (testcases_http_request reporter0
      (build_testcases (sessionId reporter0) sample_report))
    = Response status body ->
    fst (submitResults lib0 w0 reporter0 sample_report) =
      Err ("submit testcases failed: status=" ++ itoa status ++ " body=" ++ body))).
Proof.
  split; [vm_compute; discriminate|]. split; [reflexivity|].
  apply submitResults_one_request; [vm_compute; discriminate|reflexivity].
Defined.

(** X7: the session request of a run carries the configured session id,
    the labels parsed from the configured label string and the baggage
    decoded from the configured JSON. *)
Theorem run_session_body (lib : GoLib) (w : World) (c : Config) :
  Forall (session_body_from_config lib c) (snd (run lib w c)).
Proof.
  eapply Forall_impl; [|apply (run_events lib w c)].
  intros [|p|req] H; cbn [session_body_from_config]; [exact I|exact I|].
  destruct H as (bg & Hbg & [-> | (id & tcs & ->)]); [|exact I].
  cbn [ReqBody session_http_request]. unfold session_request.
  destruct (String.eqb _ ""); cbn; repeat split; exact Hbg.
Qed.

(** X8: the input is read from stdin only when the file argument is
    ["-"], and otherwise only from the configured path. *)
Theorem run_reads_configured_input (lib : GoLib) (w : World) (c : Config) :
  Forall (reads_configured_input c) (snd (run lib w c)).
Proof.
  eapply Forall_impl; [|apply (run_events lib w c)].
  intros [|p|req] H; exact H || exact I.
Qed.

(** ** Decoding the report *)

Lemma parse_uint_loop_nonneg (s0 s : string) :
  forall n m, (0 <= n)%Z -> strconv.parse_uint_loop s0 s n = Ok m -> (0 <= m)%Z.
Proof.
  induction s as [|ch s IH]; intros n m Hn H.
  - injection H as <-. exact Hn.
  - change (strconv.parse_uint_loop s0 (String ch s) n) with
      (match strconv.digit_val ch with
       | None => Err (strconv.syntax_error s0)
       | Some d =>
           if (strconv.cutoff <=? n)%Z then Err (strconv.range_error s0)
           else
             let n1 := (n * 10 + d)%Z in
             if (strconv.maxUint64 <? n1)%Z then Err (strconv.range_error s0)
             else strconv.parse_uint_loop s0 s n1
       end) in H.
    destruct (strconv.digit_val ch) as [d|] eqn:Hd; [|discriminate H].
    assert (Hd0 : (0 <= d)%Z).
    { unfold strconv.digit_val in Hd.
      destruct (_ && _)%bool; [|discriminate Hd].
      injection Hd as <-. lia. }
    destruct (strconv.cutoff <=? n)%Z; [discriminate H|].
    cbv zeta in H. destruct (strconv.maxUint64 <? n * 10 + d)%Z; [discriminate H|].
    apply (IH (n * 10 + d)%Z); [lia|exact H].
Qed.

Lemma ParseInt_range (s : string) (z : Z) :
  strconv.ParseInt s = Ok z -> in_int64 z.
Proof.
  assert (Htail : forall (neg : bool) (un : Z) (s0 : string), (0 <= un)%Z ->
    (if negb neg && (2 ^ 63 <=? un) then Err (strconv.range_error s0)
     else if neg && (2 ^ 63 <? un) then Err (strconv.range_error s0)
     else Ok (if neg then - un else un))%Z = Ok z -> in_int64 z).
  { intros neg un s0 Hun H. unfold in_int64.
    destruct neg; cbn [negb andb] in H.
    - destruct (Z.ltb_spec (2 ^ 63) un); [discriminate H|].
      injection H as <-. lia.
    - destruct (Z.leb_spec (2 ^ 63) un); [discriminate H|].
      injection H as <-. lia. }
  unfold strconv.ParseInt. destruct s as [|ch rest]; [discriminate|].
  destruct (Ascii.eqb ch "+"%char); [|destruct (Ascii.eqb ch "-"%char)];
    cbv iota beta;
    [destruct rest as [|ch' rest']; [discriminate|]
    |destruct rest as [|ch' rest']; [discriminate|]
    |];
    match goal with
    | |- match strconv.parse_uint_loop ?s0 ?d 0 with _ => _ end = _ -> _ =>
        destruct (strconv.parse_uint_loop s0 d 0) as [un|e] eqn:Hp;
        [apply Htail;
         exact (parse_uint_loop_nonneg _ _ _ _ (Z.le_refl 0) Hp)
        |discriminate]
    end.
Qed.

Lemma copy_int_range (v : string) (z : Z) : copy_int v = Ok z -> in_int64 z.
Proof.
  unfold copy_int. destruct (String.eqb v "").
  - intros H. injection H as <-. unfold in_int64. lia.
  - apply ParseInt_range.
Qed.

Lemma set_suite_attr_counts (su su' : TestSuite) (a : string * string) :
  set_suite_attr su a = Ok su' -> suite_counts_int64 su -> suite_counts_int64 su'.
Proof.
  destruct a as [k v], su as [nm te fa er sk ti tst cs].
  unfold set_suite_attr, suite_counts_int64. cbn iota beta.
  destruct (String.eqb k "name");
    [intros H; injection H as <-; cbn; tauto|].
  destruct (String.eqb k "tests");
    [destruct (copy_int v) as [z|e] eqn:Hc; intros H; [|discriminate H];
     injection H as <-; apply copy_int_range in Hc; cbn; tauto|].
  destruct (String.eqb k "failures");
    [destruct (copy_int v) as [z|e] eqn:Hc; intros H; [|discriminate H];
     injection H as <-; apply copy_int_range in Hc; cbn; tauto|].
  destruct (String.eqb k "errors");
    [destruct (copy_int v) as [z|e] eqn:Hc; intros H; [|discriminate H];
     injection H as <-; apply copy_int_range in Hc; cbn; tauto|].
  destruct (String.eqb k "skipped");
    [destruct (copy_int v) as [z|e] eqn:Hc; intros H; [|discriminate H];
     injection H as <-; apply copy_int_range in Hc; cbn; tauto|].
  destruct (String.eqb k "time"); [intros H; injection H as <-; cbn; tauto|].
  destruct (String.eqb k "timestamp"); intros H; injection H as <-; cbn; tauto.
Qed.

Lemma set_suite_attrs_counts (attrs : list (string * string)) :
  forall su su', set_suite_attrs su attrs = Ok su' ->
  suite_counts_int64 su -> suite_counts_int64 su'.
Proof.
  induction attrs as [|a attrs IH]; intros su su' H Hsu.
  - injection H as <-. exact Hsu.
  - cbn [set_suite_attrs] in H.
    destruct (set_suite_attr su a) as [su1|e] eqn:H1; [|discriminate H].
    exact (IH su1 su' H (set_suite_attr_counts su su1 a H1 Hsu)).
Qed.

Lemma suite_child_counts (su : TestSuite) (n : Node) :
  suite_counts_int64 (suite_child su n) <-> suite_counts_int64 su.
Proof.
  destruct su, n as [k attrs sub|t|t]; cbn; [destruct (String.eqb k "testcase")|..];
    reflexivity.
Qed.

Lemma fold_suite_child_counts (kids : list Node) :
  forall su, suite_counts_int64 (fold_left suite_child kids su) <-> suite_counts_int64 su.
Proof.
  induction kids as [|n kids IH]; intros su; [reflexivity|].
  cbn [fold_left]. rewrite IH. apply suite_child_counts.
Qed.

Lemma unmarshal_TestSuite_counts (attrs : list (string * string)) (kids : list Node)
    (su : TestSuite) :
  unmarshal_TestSuite attrs kids = Ok su -> suite_counts_int64 su.
Proof.
  unfold unmarshal_TestSuite.
  destruct (set_suite_attrs empty_suite attrs) as [su0|e] eqn:Hs; [|discriminate].
  intros H. injection H as <-. apply fold_suite_child_counts.
  apply (set_suite_attrs_counts attrs empty_suite su0 Hs).
  unfold suite_counts_int64, in_int64. cbn. lia.
Qed.

Lemma suites_children_counts (kids : list Node) :
  forall acc l, Forall suite_counts_int64 acc ->
  suites_children acc kids = Ok l -> Forall suite_counts_int64 l.
Proof.
  induction kids as [|n kids IH]; intros acc l Hacc H.
  - injection H as <-. exact Hacc.
  - destruct n as [k attrs sub|t|t]; cbn [suites_children] in H;
      [|exact (IH acc l Hacc H)|exact (IH acc l Hacc H)].
    destruct (String.eqb k "testsuite"); [|exact (IH acc l Hacc H)].
    destruct (unmarshal_TestSuite attrs sub) as [su|e] eqn:Hu; [|discriminate H].
    apply (IH (acc ++ [su])%list l); [|exact H].
    apply Forall_app. split; [exact Hacc|].
    constructor; [exact (unmarshal_TestSuite_counts attrs sub su Hu)|constructor].
Qed.

(** X9: every count a decoded report holds ([tests], [failures],
    [errors], [skipped] of each suite) is a 64-bit signed integer: the
    decoder rejects the document rather than wrap around. *)
Theorem decoded_counts_int64 (root : Node) (ts : TestSuites)
    (Hdec : unmarshal_TestSuites root = Ok ts) :
  Forall suite_counts_int64 (TestSuites_TestSuites ts).
Proof.
  revert Hdec. unfold unmarshal_TestSuites.
  destruct root as [name attrs kids|t|t]; [|discriminate|discriminate].
  destruct (String.eqb name "testsuites"); [|discriminate].
  destruct (suites_children [] kids) as [l|e] eqn:Hl; [|discriminate].
  intros H. injection H as <-. cbn.
  exact (suites_children_counts kids [] l (Forall_nil _) Hl).
Qed.

Lemma decoded_counts_int64_witness :
  unmarshal_TestSuites big_count_root = Ok big_count_report /\
  Forall suite_counts_int64 (TestSuites_TestSuites big_count_report).
Proof.
  split; [vm_compute; reflexivity|].
  apply (decoded_counts_int64 big_count_root). vm_compute. reflexivity.
Defined.

Lemma suites_children_filter (kids : list Node) :
  forall acc, suites_children acc kids =
              suites_children acc (filter (is_elem "testsuite") kids).
Proof.
  induction kids as [|n kids IH]; intros acc; [reflexivity|].
  destruct n as [k attrs sub|t|t]; cbn [suites_children filter is_elem];
    [|apply IH|apply IH].
  destruct (String.eqb k "testsuite") eqn:E; cbn [suites_children];
    rewrite ?E; [|apply IH].
  destruct (unmarshal_TestSuite attrs sub); [apply IH|reflexivity].
Qed.

Lemma set_suite_attr_unknown (su : TestSuite) (a : string * string) :
  suite_attr_known a = false -> set_suite_attr su a = Ok su.
Proof.
  destruct a as [k v], su. unfold suite_attr_known, set_suite_attr. intros H.
  repeat match goal with
         | H : (_ || _)%bool = false |- _ => apply orb_false_elim in H; destruct H
         end.
  cbn iota beta.
  repeat match goal with
         | H : String.eqb ?k ?s = false |- context [String.eqb ?k ?s] => rewrite H
         end.
  reflexivity.
Qed.

Lemma set_suite_attrs_filter (attrs : list (string * string)) :
  forall su, set_suite_attrs su attrs =
             set_suite_attrs su (filter suite_attr_known attrs).
Proof.
  induction attrs as [|a attrs IH]; intros su; [reflexivity|].
  cbn [filter]. destruct (suite_attr_known a) eqn:Ha; cbn [set_suite_attrs].
  - destruct (set_suite_attr su a); [apply IH|reflexivity].
  - rewrite (set_suite_attr_unknown su a Ha). apply IH.
Qed.

Lemma suite_child_other (su : TestSuite) (n : Node) :
  is_elem "testcase" n = false -> suite_child su n = su.
Proof.
  destruct su, n as [k attrs sub|t|t]; cbn; [|reflexivity|reflexivity].
  intros H. rewrite H. reflexivity.
Qed.

Lemma fold_suite_child_filter (kids : list Node) :
  forall su, fold_left suite_child kids su =
             fold_left suite_child (filter (is_elem "testcase") kids) su.
Proof.
  induction kids as [|n kids IH]; intros su; [reflexivity|].
  cbn [filter fold_left]. destruct (is_elem "testcase" n) eqn:Hn.
  - apply IH.
  - rewrite (suite_child_other su n Hn). apply IH.
Qed.

(** X10: the decoder ignores what the structs do not name: the
    attributes of [<testsuites>] and its children other than
    [<testsuite>] elements, and in a [<testsuite>] the attributes other
    than the seven fields and the children other than [<testcase>]
    elements (properties, system-out, comments, text). *)
Theorem xml_unknown_ignored (attrs : list (string * string)) (kids : list Node)
    (sattrs : list (string * string)) (skids : list Node) :
  unmarshal_TestSuites (Element "testsuites" attrs kids) =
    unmarshal_TestSuites (Element "testsuites" []
                            (filter (is_elem "testsuite") kids)) /\
  unmarshal_TestSuite sattrs skids =
    unmarshal_TestSuite (filter suite_attr_known sattrs)
                        (filter (is_elem "testcase") skids).
Proof.
  split.
  - unfold unmarshal_TestSuites. rewrite (suites_children_filter kids []).
    reflexivity.
  - unfold unmarshal_TestSuite. rewrite (set_suite_attrs_filter sattrs empty_suite).
    destruct (set_suite_attrs empty_suite (filter suite_attr_known sattrs));
      [rewrite (fold_suite_child_filter skids)|]; reflexivity.
Qed.

Lemma set_suite_attr_cases (su su' : TestSuite) (a : string * string) :
  set_suite_attr su a = Ok su' -> TestSuite_TestCases su' = TestSuite_TestCases su.
Proof.
  destruct a as [k v], su. unfold set_suite_attr. cbn iota beta.
  repeat (destruct (String.eqb k _); [|]);
    try (destruct (copy_int v); [|discriminate]);
    intros H; injection H as <-; reflexivity.
Qed.

Lemma set_suite_attrs_cases (attrs : list (string * string)) :
  forall su su', set_suite_attrs su attrs = Ok su' ->
  TestSuite_TestCases su' = TestSuite_TestCases su.
Proof.
  induction attrs as [|a attrs IH]; intros su su' H.
  - injection H as <-. reflexivity.
  - cbn [set_suite_attrs] in H.
    destruct (set_suite_attr su a) as [su1|e] eqn:H1; [|discriminate H].
    rewrite (IH su1 su' H). exact (set_suite_attr_cases su su1 a H1).
Qed.

Lemma fold_suite_child_cases (kids : list Node) :
  forall su, TestSuite_TestCases (fold_left suite_child kids su) =
    (TestSuite_TestCases su ++
     map (fun '(a, ch) => unmarshal_TestCase a ch) (child_elems "testcase" kids))%list.
Proof.
  induction kids as [|n kids IH]; intros su.
  - cbn. now rewrite app_nil_r.
  - cbn [fold_left]. rewrite IH.
    destruct su, n as [k attrs sub|t|t]; cbn; [|reflexivity|reflexivity].
    destruct (String.eqb k "testcase"); cbn; [|reflexivity].
    now rewrite <- app_assoc.
Qed.

Lemma unmarshal_TestSuite_cases (attrs : list (string * string))
    (kids : list Node) (su : TestSuite) :
  unmarshal_TestSuite attrs kids = Ok su ->
  TestSuite_TestCases su =
    map (fun '(a, ch) => unmarshal_TestCase a ch) (child_elems "testcase" kids).
Proof.
  unfold unmarshal_TestSuite.
  destruct (set_suite_attrs empty_suite attrs) as [su0|e] eqn:Hs; [|discriminate].
  intros H. injection H as <-. rewrite fold_suite_child_cases.
  rewrite (set_suite_attrs_cases attrs empty_suite su0 Hs). reflexivity.
Qed.

(** X11: the cases of a decoded suite are its [<testcase>] children,
    one each, decoded in document order; nothing else adds a case. *)
Theorem suite_cases_from_elements (attrs : list (string * string))
    (kids : list Node) (su : TestSuite)
    (Hdec : unmarshal_TestSuite attrs kids = Ok su) :
  TestSuite_TestCases su =
    map (fun '(a, ch) => unmarshal_TestCase a ch) (child_elems "testcase" kids).
Proof. exact (unmarshal_TestSuite_cases attrs kids su Hdec). Qed.

Lemma suite_cases_from_elements_witness :
  unmarshal_TestSuite mixed_suite_attrs mixed_suite_kids = Ok mixed_suite /\
  TestSuite_TestCases mixed_suite =
    map (fun '(a, ch) => unmarshal_TestCase a ch)
        (child_elems "testcase" mixed_suite_kids).
Proof.
  split; [vm_compute; reflexivity|].
  apply (suite_cases_from_elements mixed_suite_attrs mixed_suite_kids).
  vm_compute. reflexivity.
Defined.

Lemma suites_children_elems (kids : list Node) :
  forall acc l, suites_children acc kids = Ok l ->
  exists l', l = (acc ++ l')%list /\
    Forall2 (fun '(a, ch) su => unmarshal_TestSuite a ch = Ok su)
            (child_elems "testsuite" kids) l'.
Proof.
  induction kids as [|n kids IH]; intros acc l H.
  - injection H as <-. exists []. split; [now rewrite app_nil_r|constructor].
  - destruct n as [k attrs sub|t|t]; cbn [suites_children] in H;
      [|exact (IH acc l H)|exact (IH acc l H)].
    unfold child_elems. cbn [flat_map]. fold (child_elems "testsuite" kids).
    destruct (String.eqb k "testsuite"); [|exact (IH acc l H)].
    destruct (unmarshal_TestSuite attrs sub) as [su|e] eqn:Hu; [|discriminate H].
    destruct (IH _ _ H) as (l' & -> & Hl').
    exists (su :: l'). split; [now rewrite <- app_assoc|].
    constructor; [exact Hu|exact Hl'].
Qed.

(** X12: the suites of a decoded report are the [<testsuite>] children of
    the [<testsuites>] root, one each, decoded in document order. *)
Theorem root_suites_from_elements (name : string) (attrs : list (string * string))
    (kids : list Node) (ts : TestSuites)
    (Hdec : unmarshal_TestSuites (Element name attrs kids) = Ok ts) :
  name = "testsuites" /\
  Forall2 (fun '(a, ch) su => unmarshal_TestSuite a ch = Ok su)
          (child_elems "testsuite" kids) (TestSuites_TestSuites ts).
Proof.
  revert Hdec. cbn [unmarshal_TestSuites].
  destruct (String.eqb name "testsuites") eqn:Hn; [|discriminate].
  apply String.eqb_eq in Hn. subst name.
  destruct (suites_children [] kids) as [l|e] eqn:Hl; [|discriminate].
  intros H. injection H as <-. split; [reflexivity|].
  destruct (suites_children_elems kids [] l Hl) as (l' & -> & Hl'). exact Hl'.
Qed.

Lemma root_suites_from_elements_witness :
  unmarshal_TestSuites (Element "testsuites" [] mixed_root_kids) = Ok mixed_report /\
  ("testsuites" = "testsuites" /\
   Forall2 (fun '(a, ch) su => unmarshal_TestSuite a ch = Ok su)
           (child_elems "testsuite" mixed_root_kids)
           (TestSuites_TestSuites mixed_report)).
Proof.
  split; [vm_compute; reflexivity|].
  apply (root_suites_from_elements "testsuites" [] mixed_root_kids).
  vm_compute. reflexivity.
Defined.

(** X13: decoding and batching compose: the batch has one record per
    [<testcase>] element of a [<testsuite>] child of the root. *)
Theorem records_per_testcase_element (lib : GoLib) (data sid name : string)
    (attrs : list (string * string)) (kids : list Node) (ts : TestSuites)
    (Hroot : xml_root lib data = Ok (Element name attrs kids))
    (Hdec : xml_Unmarshal lib data = Ok ts) :
  List.length (build_testcases sid ts) =
  list_sum (map (fun '(a, ch) => List.length (child_elems "testcase" ch))
                (child_elems "testsuite" kids)).
Proof.
  unfold xml_Unmarshal in Hdec. rewrite Hroot in Hdec.
  cbn [unmarshal_TestSuites] in Hdec.
  destruct (String.eqb name "testsuites"); [|discriminate].
  destruct (suites_children [] kids) as [l|e] eqn:Hl; [|discriminate].
  injection Hdec as <-.
  destruct (suites_children_elems kids [] l Hl) as (l' & -> & Hl').
  rewrite build_testcases_flat, length_flat_map_map. cbn [TestSuites_TestSuites app].
  clear Hl Hroot.
  induction Hl' as [|[a ch] su elems sus Hsu _ IH]; [reflexivity|].
  cbn [map]. unfold list_sum in *. cbn [fold_right]. rewrite IH.
  rewrite (unmarshal_TestSuite_cases a ch su Hsu), length_map. reflexivity.
Qed.

Lemma records_per_testcase_element_witness :
  xml_root lib0 "report" = Ok (Element "testsuites" [] sample_root_kids) /\
  xml_Unmarshal lib0 "report" = Ok sample_report /\
  List.length (build_testcases "s-1" sample_report) =
  list_sum (map (fun '(a, ch) => List.length (child_elems "testcase" ch))
                (child_elems "testsuite" sample_root_kids)).
Proof.
  split; [reflexivity|]. split; [vm_compute; reflexivity|].
  apply (records_per_testcase_element lib0 "report" "s-1" "testsuites" []
           sample_root_kids); [reflexivity|vm_compute; reflexivity].
Defined.

Lemma set_case_attr_details (tc : TestCase) (a : string * string) :
  TestCase_Failure (set_case_attr tc a) = TestCase_Failure tc /\
  TestCase_Error (set_case_attr tc a) = TestCase_Error tc /\
  TestCase_Skipped (set_case_attr tc a) = TestCase_Skipped tc.
Proof.
  destruct a as [k v], tc. unfold set_case_attr. cbn iota beta.
  repeat (destruct (String.eqb k _)); repeat split.
Qed.

Lemma fold_set_case_attr_details (attrs : list (string * string)) :
  forall tc,
  TestCase_Failure (fold_left set_case_attr attrs tc) = TestCase_Failure tc /\
  TestCase_Error (fold_left set_case_attr attrs tc) = TestCase_Error tc /\
  TestCase_Skipped (fold_left set_case_attr attrs tc) = TestCase_Skipped tc.
Proof.
  induction attrs as [|a attrs IH]; intros tc; [repeat split|].
  cbn [fold_left]. destruct (IH (set_case_attr tc a)) as (H1 & H2 & H3).
  destruct (set_case_attr_details tc a) as (E1 & E2 & E3).
  rewrite H1, H2, H3, E1, E2, E3. repeat split.
Qed.

Lemma case_child_details (tc : TestCase) (n : Node) :
  is_present (TestCase_Failure (case_child tc n)) =
    (is_present (TestCase_Failure tc) || is_elem "failure" n)%bool /\
  is_present (TestCase_Error (case_child tc n)) =
    (is_present (TestCase_Error tc) || is_elem "error" n)%bool /\
  is_present (TestCase_Skipped (case_child tc n)) =
    (is_present (TestCase_Skipped tc) || is_elem "skipped" n)%bool.
Proof.
  destruct tc as [nm cl ti f e s], n as [k attrs sub|t|t];
    cbn [case_child is_elem TestCase_Failure TestCase_Error TestCase_Skipped];
    [|rewrite !orb_false_r; repeat split..].
  destruct (String.eqb k "failure") eqn:E1.
  { apply String.eqb_eq in E1. subst k. cbn. rewrite orb_true_r. repeat split;
      rewrite orb_false_r; reflexivity. }
  destruct (String.eqb k "error") eqn:E2.
  { apply String.eqb_eq in E2. subst k. cbn. rewrite orb_true_r. repeat split;
      rewrite orb_false_r; reflexivity. }
  destruct (String.eqb k "skipped") eqn:E3.
  { apply String.eqb_eq in E3. subst k. cbn. rewrite orb_true_r. repeat split;
      rewrite orb_false_r; reflexivity. }
  cbn. rewrite !orb_false_r. repeat split.
Qed.

Lemma fold_case_child_details (kids : list Node) :
  forall tc,
  is_present (TestCase_Failure (fold_left case_child kids tc)) =
    (is_present (TestCase_Failure tc) || has_child "failure" kids)%bool /\
  is_present (TestCase_Error (fold_left case_child kids tc)) =
    (is_present (TestCase_Error tc) || has_child "error" kids)%bool /\
  is_present (TestCase_Skipped (fold_left case_child kids tc)) =
    (is_present (TestCase_Skipped tc) || has_child "skipped" kids)%bool.
Proof.
  unfold has_child.
  induction kids as [|n kids IH]; intros tc.
  - cbn. rewrite !orb_false_r. repeat split.
  - cbn [fold_left existsb]. destruct (IH (case_child tc n)) as (H1 & H2 & H3).
    destruct (case_child_details tc n) as (E1 & E2 & E3).
    rewrite H1, H2, H3, E1, E2, E3, !orb_assoc. repeat split.
Qed.

(** X14: a decoded [<testcase>] has a failure, an error or a skipped
    marker exactly when it has a [<failure>], [<error>] or [<skipped>]
    child element; attributes never set them. *)
Theorem testcase_details_from_children (attrs : list (string * string))
    (kids : list Node) :
  is_present (TestCase_Failure (unmarshal_TestCase attrs kids)) = has_child "failure" kids /\
  is_present (TestCase_Error (unmarshal_TestCase attrs kids)) = has_child "error" kids /\
  is_present (TestCase_Skipped (unmarshal_TestCase attrs kids)) = has_child "skipped" kids.
Proof.
  unfold unmarshal_TestCase.
  destruct (fold_case_child_details kids (fold_left set_case_attr attrs empty_case))
    as (H1 & H2 & H3).
  destruct (fold_set_case_attr_details attrs empty_case) as (E1 & E2 & E3).
  rewrite H1, H2, H3, E1, E2, E3. repeat split.
Qed.

(** ** Labels and records *)

Lemma prefix_eq_char (ch : ascii) (x y : string) :
  String.prefix "=" (String ch x) = String.prefix "=" (String ch y).
Proof. destruct x, y; reflexivity. Qed.

Lemma index_eq_before (t : string) :
  forall i, String.index 0 "=" t = Some i ->
  String.index 0 "=" (substring 0 i t) = None.
Proof.
  induction t as [|ch t IH]; intros i H; [discriminate H|].
  change (String.index 0 "=" (String ch t)) with
    (if String.prefix "=" (String ch t) then Some 0%nat
     else match String.index 0 "=" t with
          | Some n => Some (S n)
          | None => None
          end) in H.
  destruct (String.prefix "=" (String ch t)) eqn:Hp.
  - injection H as <-. reflexivity.
  - destruct (String.index 0 "=" t) as [n|] eqn:Ht; [|discriminate H].
    injection H as <-.
    change (String.index 0 "=" (String ch (substring 0 n t)) = None).
    change (String.index 0 "=" (String ch (substring 0 n t))) with
      (if String.prefix "=" (String ch (substring 0 n t)) then Some 0%nat
       else match String.index 0 "=" (substring 0 n t) with
            | Some n => Some (S n)
            | None => None
            end).
    rewrite (prefix_eq_char ch (substring 0 n t) t), Hp, (IH n eq_refl).
    reflexivity.
Qed.

Lemma fold_left_Forall {A B} (P : B -> Prop) (step : list B -> A -> list B) :
  forall (l : list A) (acc : list B), Forall P acc ->
  (forall acc x, Forall P acc -> Forall P (step acc x)) ->
  Forall P (fold_left step l acc).
Proof.
  induction l as [|x l IH]; intros acc Hacc Hstep; [exact Hacc|].
  cbn [fold_left]. apply IH; [apply Hstep; exact Hacc|exact Hstep].
Qed.

(** X15: no label key contains ['=']: a token is split at its first
    ['='], and a token without one is a key as a whole. *)
Theorem parseLabels_keys_no_eq (s : string) :
  Forall (fun l => String.index 0 "=" (Label_Key l) = None) (parseLabels s).
Proof.
  unfold parseLabels. destruct (String.eqb s ""); [constructor|].
  apply fold_left_Forall; [constructor|]. intros acc tok Hacc. cbv zeta.
  destruct (String.eqb (strings.TrimSpace tok) "") eqn:Hb; [exact Hacc|].
  rewrite Cut_eq_index.
  destruct (String.index 0 "=" (strings.TrimSpace tok)) as [i|] eqn:Hi;
    apply Forall_app; (split; [exact Hacc|]); constructor; try constructor;
    cbn [Label_Key].
  - exact (index_eq_before _ i Hi).
  - exact Hi.
Qed.
